(** * GenAI Adoption Pulse: the insights engine

    A shallow embedding of [backend/services/insights_engine.py] and the
    statements of its specification that are settled against it.

    Numeric model.  Python [int] is [Z].  Python [float] is idealised as a
    real number ([R]): arithmetic is exact, [x ** 0.5] is the real square
    root, and [round(x, 3)] rounds the exact value half-to-even at the third
    decimal.  Exceptions are values of an error monad, so that "this code
    never raises" is a statement about the embedding.  Python dictionaries
    are insertion-ordered association lists with unique keys, because
    [max(d, key=d.get)] and [min(d, key=d.get)] break ties by insertion
    order.  [datetime.utcnow()] reads a clock that is a parameter of the
    model: one reading per call, in program order. *)

From Stdlib Require Import Reals Lra Lia ZArith List String Ascii Bool.
From Stdlib Require Import Permutation Sorted DecimalString.
Import ListNotations.

Open Scope R_scope.

(** ** Python runtime *)

Module Py.

Inductive PyError : Set :=
| ZeroDivisionError
| StatisticsError
| ValueError
| KeyError
| TypeError.

(** A computation that returns a value or raises. *)
Definition Exc (A : Type) : Type := (PyError + A)%type.

Definition ret {A : Type} (a : A) : Exc A := inr a.

Definition raise {A : Type} (e : PyError) : Exc A := inl e.

Definition bind {A B : Type} (m : Exc A) (f : A -> Exc B) : Exc B :=
  match m with
  | inl e => inl e
  | inr a => f a
  end.

(** [len(l)] *)
Definition len {A : Type} (l : list A) : Z := Z.of_nat (List.length l).

(** [sum(l)] on floats: a left fold from 0. *)
Definition sum (l : list R) : R := fold_left Rplus l 0.

(** [a / b] on floats. *)
Definition fdiv (a b : R) : Exc R :=
  if Req_dec_T b 0 then raise ZeroDivisionError else ret (a / b).

(** [statistics.mean(l)]: raises [StatisticsError] on an empty list. *)
Definition mean (l : list R) : Exc R :=
  match l with
  | [] => raise StatisticsError
  | _ :: _ => ret (sum l / IZR (len l))
  end.

(** [x ** 0.5].  On a negative base Python answers with a complex number,
    which the comparisons and [round] that follow in this program reject
    with a [TypeError]; the model raises it at once. *)
Definition pow_half (x : R) : Exc R :=
  if Rlt_dec x 0 then raise TypeError else ret (sqrt x).

(** Nearest integer, ties to the even one. *)
Definition round_half_even (x : R) : Z :=
  let f := Int_part x in
  let d := x - IZR f in
  if Rlt_dec d (1 / 2) then f
  else if Rlt_dec (1 / 2) d then (f + 1)%Z
  else if Z.even f then f else (f + 1)%Z.

(** [round(x, ndigits)] *)
Definition round (x : R) (ndigits : nat) : R :=
  IZR (round_half_even (x * 10 ^ ndigits)) / 10 ^ ndigits.

(** [min(a, b)] and [abs(x)] on floats are [Rmin] and [Rabs]. *)

(** *** Dictionaries: insertion-ordered, keys unique *)

Section Dict.
Context {K V : Type} (eqb : K -> K -> bool).

Fixpoint get (d : list (K * V)) (k : K) : option V :=
  match d with
  | [] => None
  | (k', v) :: d' => if eqb k k' then Some v else get d' k
  end.

(** [d[k] = v]: an existing key keeps its position. *)
Fixpoint set (d : list (K * V)) (k : K) (v : V) : list (K * V) :=
  match d with
  | [] => [(k, v)]
  | (k', v') :: d' =>
      if eqb k k' then (k', v) :: d' else (k', v') :: set d' k v
  end.

(** [del d[k]] *)
Fixpoint del (d : list (K * V)) (k : K) : list (K * V) :=
  match d with
  | [] => []
  | (k', v') :: d' => if eqb k k' then d' else (k', v') :: del d' k
  end.

Definition keys (d : list (K * V)) : list K := map fst d.

(** [d[k]] as an expression: [KeyError] on a missing key. *)
Definition getitem (d : list (K * V)) (k : K) : Exc V :=
  match get d k with
  | Some v => ret v
  | None => raise KeyError
  end.
End Dict.

(** [d[k].append(v)] on a [defaultdict(list)]. *)
Definition append_to {K V : Type} (eqb : K -> K -> bool)
    (d : list (K * list V)) (k : K) (v : V) : list (K * list V) :=
  match get eqb d k with
  | Some l => set eqb d k (l ++ [v])
  | None => set eqb d k [v]
  end.

(** [max(d, key=d.get)] and [min(d, key=d.get)]: the first key, in
    insertion order, whose value is the largest (smallest).  Every key of
    a dictionary maps to its own value, so the scan runs over the items.
    Both raise [ValueError] on an empty dictionary. *)
Fixpoint max_item {K : Type} (best : K * R) (l : list (K * R)) : K * R :=
  match l with
  | [] => best
  | kv :: l' => max_item (if Rgt_dec (snd kv) (snd best) then kv else best) l'
  end.

Definition max_key {K : Type} (d : list (K * R)) : Exc K :=
  match d with
  | [] => raise ValueError
  | kv :: l => ret (fst (max_item kv l))
  end.

Fixpoint min_item {K : Type} (best : K * R) (l : list (K * R)) : K * R :=
  match l with
  | [] => best
  | kv :: l' => min_item (if Rlt_dec (snd kv) (snd best) then kv else best) l'
  end.

Definition min_key {K : Type} (d : list (K * R)) : Exc K :=
  match d with
  | [] => raise ValueError
  | kv :: l => ret (fst (min_item kv l))
  end.

(** [sorted(l)] on integers: insertion sort. *)
Fixpoint insert_sorted (a : Z) (l : list Z) : list Z :=
  match l with
  | [] => [a]
  | b :: l' => if (a <=? b)%Z then a :: l else b :: insert_sorted a l'
  end.

Definition sorted (l : list Z) : list Z := fold_right insert_sorted [] l.

(** [x in l] *)
Definition in_Z (x : Z) (l : list Z) : bool := existsb (Z.eqb x) l.

Definition in_str (x : string) (l : list string) : bool :=
  existsb (String.eqb x) l.

End Py.

Import Py.

Notation "x <- m ;; k" := (bind m (fun x => k))
  (at level 61, m at next level, right associativity).

(** ** Records ([models/csv_models.py]) *)

Inductive IndustryEnum : Set :=
| HEALTHCARE | FINANCE | MANUFACTURING | TECHNOLOGY
| RETAIL | EDUCATION | ENERGY | TRANSPORTATION.

Definition value (i : IndustryEnum) : string :=
  match i with
  | HEALTHCARE => "Healthcare"
  | FINANCE => "Finance"
  | MANUFACTURING => "Manufacturing"
  | TECHNOLOGY => "Technology"
  | RETAIL => "Retail"
  | EDUCATION => "Education"
  | ENERGY => "Energy"
  | TRANSPORTATION => "Transportation"
  end%string.

Record GenAIAdoptionRecord : Type := {
  genai_industry : IndustryEnum;
  genai_year : Z;
  adoption_rate : R;
  use_cases_count : Z;
  investment_millions : R
}.

Record AWSUsageRecord : Type := {
  aws_industry : IndustryEnum;
  aws_year : Z;
  bedrock_usage : R;
  sagemaker_usage : R;
  lambda_usage : R;
  s3_usage : R;
  ec2_usage : R
}.

(** [_apply_filters] reads [record.year] and [record.industry] of whatever
    it is given. *)
Class RecordLike (A : Type) : Type := {
  year : A -> Z;
  industry : A -> IndustryEnum
}.

#[global] Instance GenAI_Record : RecordLike GenAIAdoptionRecord :=
  {| year := genai_year; industry := genai_industry |}.

#[global] Instance AWS_Record : RecordLike AWSUsageRecord :=
  {| year := aws_year; industry := aws_industry |}.

(** ** Statistics ([InsightsEngine], pure part) *)

(** Python truthiness of an [Optional[List]]: [None] and [[]] are false. *)
Definition truthy {A : Type} (o : option (list A)) : bool :=
  match o with
  | Some (_ :: _) => true
  | _ => false
  end.

(** [x not in l] under the guard [l and ...]. *)
Definition excluded_year (years : option (list Z)) (y : Z) : bool :=
  truthy years && negb (in_Z y (match years with Some l => l | None => [] end)).

Definition excluded_industry (industries : option (list string))
    (i : IndustryEnum) : bool :=
  truthy industries
  && negb (in_str (value i) (match industries with Some l => l | None => [] end)).

Fixpoint _apply_filters {A : Type} `{RecordLike A} (records : list A)
    (years : option (list Z)) (industries : option (list string)) : list A :=
  match records with
  | [] => []
  | record :: rest =>
      if excluded_year years (year record) then
        _apply_filters rest years industries
      else if excluded_industry industries (industry record) then
        _apply_filters rest years industries
      else record :: _apply_filters rest years industries
  end.

(** The four-bucket p-value of [_calculate_pearson_correlation]. *)
Definition p_bucket (t_stat : R) : R :=
  if Rgt_dec t_stat 2.576 then 0.01
  else if Rgt_dec t_stat 1.96 then 0.05
  else if Rgt_dec t_stat 1.645 then 0.10
  else 0.20.

Definition _calculate_pearson_correlation (x_values y_values : list R)
  : Exc (R * R * Z) :=
  if negb (len x_values =? len y_values)%Z || (len x_values <? 2)%Z then
    ret (0, 1, 0%Z)
  else
    let n := len x_values in
    mean_x <- mean x_values ;;
    mean_y <- mean y_values ;;
    let numerator :=
      sum (map (fun xy => (fst xy - mean_x) * (snd xy - mean_y))
               (combine x_values y_values)) in
    let sum_sq_x := sum (map (fun x => (x - mean_x) ^ 2) x_values) in
    let sum_sq_y := sum (map (fun y => (y - mean_y) ^ 2) y_values) in
    denominator <- pow_half (sum_sq_x * sum_sq_y) ;;
    if Req_dec_T denominator 0 then ret (0, 1, n)
    else
      correlation <- fdiv numerator denominator ;;
      p_value <-
        (if Rge_dec (Rabs correlation) 0.999 then ret 0.001
         else
           q <- fdiv (IZR (n - 2)) (1 - correlation ^ 2) ;;
           root <- pow_half q ;;
           let t_stat := Rabs correlation * root in
           ret (p_bucket t_stat)) ;;
      ret (round correlation 3, p_value, n).

Definition _calculate_confidence (p_value : R) (n : Z) (cohens_d : R) : R :=
  let effect_size_multiplier := 1.0 + Rabs cohens_d / 2 in
  let confidence :=
    Rmin 0.95 ((1 - p_value) * (IZR n / 100) * effect_size_multiplier) in
  round confidence 3.

(** The usage score computed inline by [_generate_correlation_insights]. *)
Definition aws_score (aws_record : AWSUsageRecord) : R :=
  bedrock_usage aws_record * 0.3
  + sagemaker_usage aws_record * 0.3
  + lambda_usage aws_record * 0.2
  + s3_usage aws_record * 0.1
  + ec2_usage aws_record * 0.1.

(** ** [hashlib.md5] (RFC 1321) on byte lists; words are 32-bit, in [Z] *)

Module Md5.
Local Open Scope Z_scope.

Definition w32 (x : Z) : Z := x mod 2 ^ 32.

Definition rotl (x c : Z) : Z :=
  w32 (Z.lor (Z.shiftl x c) (Z.shiftr x (32 - c))).

Definition not32 (x : Z) : Z := Z.lxor x 0xffffffff.

Definition s_table : list Z :=
  [ 7; 12; 17; 22; 7; 12; 17; 22; 7; 12; 17; 22; 7; 12; 17; 22;
    5; 9; 14; 20; 5; 9; 14; 20; 5; 9; 14; 20; 5; 9; 14; 20;
    4; 11; 16; 23; 4; 11; 16; 23; 4; 11; 16; 23; 4; 11; 16; 23;
    6; 10; 15; 21; 6; 10; 15; 21; 6; 10; 15; 21; 6; 10; 15; 21 ].

Definition k_table : list Z :=
  [ 3614090360; 3905402710; 606105819; 3250441966;
    4118548399; 1200080426; 2821735955; 4249261313;
    1770035416; 2336552879; 4294925233; 2304563134;
    1804603682; 4254626195; 2792965006; 1236535329;
    4129170786; 3225465664; 643717713; 3921069994;
    3593408605; 38016083; 3634488961; 3889429448;
    568446438; 3275163606; 4107603335; 1163531501;
    2850285829; 4243563512; 1735328473; 2368359562;
    4294588738; 2272392833; 1839030562; 4259657740;
    2763975236; 1272893353; 4139469664; 3200236656;
    681279174; 3936430074; 3572445317; 76029189;
    3654602809; 3873151461; 530742520; 3299628645;
    4096336452; 1126891415; 2878612391; 4237533241;
    1700485571; 2399980690; 4293915773; 2240044497;
    1873313359; 4264355552; 2734768916; 1309151649;
    4149444226; 3174756917; 718787259; 3951481745 ].

(** [k] little-endian bytes of [x]. *)
Fixpoint le_bytes (k : nat) (x : Z) : list Z :=
  match k with
  | O => []
  | S k' => x mod 256 :: le_bytes k' (x / 256)
  end.

Fixpoint of_le_bytes (bs : list Z) : Z :=
  match bs with
  | [] => 0
  | b :: bs' => b + 256 * of_le_bytes bs'
  end.

Definition pad (msg : list Z) : list Z :=
  let n := Z.of_nat (List.length msg) in
  msg ++ [128] ++ repeat 0 (Z.to_nat ((55 - n) mod 64)) ++ le_bytes 8 (8 * n).

(** Cut into pieces of [size] elements. *)
Fixpoint chunks {A : Type} (fuel size : nat) (l : list A) : list (list A) :=
  match fuel, l with
  | O, _ => []
  | _, [] => []
  | S fuel', _ => firstn size l :: chunks fuel' size (skipn size l)
  end.

Definition words (block : list Z) : list Z :=
  map of_le_bytes (chunks 16 4 block).

Definition State : Type := (Z * Z * Z * Z)%type.

Definition step (m : list Z) (st : State) (i : nat) : State :=
  let '(a, b, c, d) := st in
  let iz := Z.of_nat i in
  let '(f, g) :=
    match (i / 16)%nat with
    | 0%nat => (Z.lor (Z.land b c) (Z.land (not32 b) d), iz)
    | 1%nat => (Z.lor (Z.land d b) (Z.land (not32 d) c), (5 * iz + 1) mod 16)
    | 2%nat => (Z.lxor (Z.lxor b c) d, (3 * iz + 5) mod 16)
    | _ => (Z.lxor c (Z.lor b (not32 d)), (7 * iz) mod 16)
    end in
  let f' := w32 (f + a + nth i k_table 0 + nth (Z.to_nat g) m 0) in
  (d, w32 (b + rotl f' (nth i s_table 0)), b, c).

Definition compress (st : State) (block : list Z) : State :=
  let '(a0, b0, c0, d0) := st in
  let '(a, b, c, d) := fold_left (step (words block)) (seq 0 64) st in
  (w32 (a0 + a), w32 (b0 + b), w32 (c0 + c), w32 (d0 + d)).

Definition init : State := (0x67452301, 0xefcdab89, 0x98badcfe, 0x10325476).

Definition digest (msg : list Z) : list Z :=
  let padded := pad msg in
  let '(a, b, c, d) :=
    fold_left compress (chunks (List.length padded) 64 padded) init in
  le_bytes 4 a ++ le_bytes 4 b ++ le_bytes 4 c ++ le_bytes 4 d.

Definition hex_digit (n : Z) : ascii :=
  nth (Z.to_nat n)
      ["0"; "1"; "2"; "3"; "4"; "5"; "6"; "7";
       "8"; "9"; "a"; "b"; "c"; "d"; "e"; "f"]%char "0"%char.

Definition hex_byte (b : Z) : string :=
  String (hex_digit (b / 16)) (String (hex_digit (b mod 16)) EmptyString).

(** [s.encode()] of an ASCII string, one byte per character. *)
Definition encode (s : string) : list Z :=
  map (fun c => Z.of_nat (nat_of_ascii c)) (list_ascii_of_string s).

(** [hashlib.md5(s.encode()).hexdigest()] *)
Definition hexdigest (s : string) : string :=
  String.concat EmptyString (map hex_byte (digest (encode s))).

End Md5.

(** ** [json.dumps(filters, sort_keys=True)] for the filter dictionary *)

Module Json.
Local Open Scope string_scope.

Definition dquote : string := String (ascii_of_nat 34) EmptyString.

Definition backslash : string := String (ascii_of_nat 92) EmptyString.

(** The ASCII-only escaping of [json.encoder]: every character outside
    space..tilde, the quote and the backslash are escaped. *)
Definition escape_char (c : ascii) : string :=
  let n := nat_of_ascii c in
  if (n =? 34)%nat then backslash ++ dquote
  else if (n =? 92)%nat then backslash ++ backslash
  else if (n =? 10)%nat then backslash ++ "n"
  else if (n =? 13)%nat then backslash ++ "r"
  else if (n =? 9)%nat then backslash ++ "t"
  else if (n =? 8)%nat then backslash ++ "b"
  else if (n =? 12)%nat then backslash ++ "f"
  else if (n <? 32)%nat || (126 <? n)%nat then
    backslash ++ "u00" ++ Md5.hex_byte (Z.of_nat n)
  else String c EmptyString.

Definition dump_str (s : string) : string :=
  dquote ++ String.concat EmptyString (map escape_char (list_ascii_of_string s)) ++ dquote.

Definition dump_int (z : Z) : string := NilZero.string_of_int (Z.to_int z).

Definition dump_list {A : Type} (dump : A -> string) (o : option (list A))
  : string :=
  match o with
  | None => "null"
  | Some l => "[" ++ String.concat ", " (map dump l) ++ "]"
  end.

(** The dictionary [{"years": years, "industries": industries}] with its
    keys sorted: [industries] comes first. *)
Definition dumps (years : option (list Z)) (industries : option (list string))
  : string :=
  "{" ++ dquote ++ "industries" ++ dquote ++ ": " ++ dump_list dump_str industries
  ++ ", " ++ dquote ++ "years" ++ dquote ++ ": " ++ dump_list dump_int years ++ "}".

End Json.

(** ** Insight objects *)

(** A piece of an f-string.  Literal text is kept as text; a formatted
    float keeps its value and its format ([{x:.1%}], [{x:.1f}], [{x:.3f}],
    [{x}]); [Stamp s] is [strftime('%Y%m%d_%H%M%S')] of a time whose whole
    seconds are [s]. *)
Inductive Frag : Type :=
| Lit (s : string)
| Percent1 (x : R)
| Fixed1 (x : R)
| Fixed3 (x : R)
| Repr (x : R)
| Stamp (seconds : Z).

Inductive StatValue : Type :=
| SFloat (x : R)
| SInt (z : Z)
| SStr (s : string).

(** A [datetime] is a number of microseconds; [computed_at] holds the time
    whose [isoformat()] the source stores. *)
Record InsightObject : Type := {
  id : list Frag;
  title : string;
  short_text : list Frag;
  details : list Frag;
  confidence : R;
  data_slice_url : string;
  computed_at : Z;
  category : string;
  statistical_data : list (string * StatValue)
}.

(** ** The engine and its cache *)

Record InsightCache : Type := {
  cache : list (string * (list InsightObject * Z));
  ttl_minutes : Z
}.

(** The state a call runs in: how many times the clock was read, and the
    engine's cache. *)
Record World : Type := {
  tick : nat;
  engine_cache : InsightCache
}.

(** [InsightCache(ttl_minutes=10)], as [InsightsEngine.__init__] builds it. *)
Definition InsightsEngine_init (tick0 : nat) : World :=
  {| tick := tick0; engine_cache := {| cache := []; ttl_minutes := 10 |} |}.

Definition M (A : Type) : Type := World -> Exc (A * World).

Definition mret {A : Type} (a : A) : M A := fun w => ret (a, w).

Definition mbind {A B : Type} (m : M A) (f : A -> M B) : M B :=
  fun w =>
    match m w with
    | inl e => inl e
    | inr (a, w') => f a w'
    end.

Definition lift {A : Type} (e : Exc A) : M A :=
  fun w =>
    match e with
    | inl err => inl err
    | inr a => inr (a, w)
    end.

Notation "x <~ m ;; k" := (mbind m (fun x => k))
  (at level 61, m at next level, right associativity).

(** [timedelta(minutes=m)] in microseconds. *)
Definition timedelta_minutes (m : Z) : Z := (m * 60000000)%Z.

(** Whole seconds of a time, for [strftime]. *)
Definition seconds_of (t : Z) : Z := (t / 1000000)%Z.

(** [for x in l: acc = f(acc, x)] where the body may raise. *)
Fixpoint fold_exc {A B : Type} (f : B -> A -> Exc B) (l : list A) (acc : B)
  : Exc B :=
  match l with
  | [] => ret acc
  | a :: l' => acc' <- f acc a ;; fold_exc f l' acc'
  end.

(** [{k: f(v) for k, v in d.items()}] where [f] may raise. *)
Fixpoint map_values_exc {K V W : Type} (f : V -> Exc W) (d : list (K * V))
  : Exc (list (K * W)) :=
  match d with
  | [] => ret []
  | (k, v) :: d' =>
      w <- f v ;;
      rest <- map_values_exc f d' ;;
      ret ((k, w) :: rest)
  end.

(** Neighbours [(l[i-1], l[i])] for [i] in [range(1, len(l))]. *)
Fixpoint consecutive {A : Type} (l : list A) : list (A * A) :=
  match l with
  | a :: (b :: _) as rest => (a, b) :: consecutive rest
  | _ => []
  end.

Definition is_empty (s : string) : bool :=
  match s with
  | EmptyString => true
  | String _ _ => false
  end.

(** [str.title()] on ASCII text. *)
Fixpoint title_from (prev_cased : bool) (s : string) : string :=
  match s with
  | EmptyString => EmptyString
  | String c s' =>
      let n := nat_of_ascii c in
      let lower := (97 <=? n)%nat && (n <=? 122)%nat in
      let upper := (65 <=? n)%nat && (n <=? 90)%nat in
      let c' :=
        if prev_cased then (if upper then ascii_of_nat (n + 32) else c)
        else (if lower then ascii_of_nat (n - 32) else c) in
      String c' (title_from (lower || upper) s')
  end.

Definition str_title (s : string) : string := title_from false s.

(** [filters.get(k)] when it is truthy. *)
Definition get_truthy (filters : list (string * string)) (k : string)
  : option string :=
  match get String.eqb filters k with
  | Some v => if is_empty v then None else Some v
  | None => None
  end.

Definition _generate_data_slice_url (filters : list (string * string))
  : string :=
  let params := [] in
  let params :=
    match get_truthy filters "industry" with
    | Some v => params ++ [("industry=" ++ v)%string]
    | None => params
    end in
  let params :=
    match get_truthy filters "year" with
    | Some v => params ++ [("year=" ++ v)%string]
    | None => params
    end in
  let params :=
    match get_truthy filters "metric" with
    | Some v => params ++ [("metric=" ++ v)%string]
    | None => params
    end in
  let query_string := String.concat "&" params in
  if is_empty query_string then "/api/data/slice"%string
  else ("/api/data/slice?" ++ query_string)%string.

Section Engine.

(** Successive readings of [datetime.utcnow()]. *)
Variable clock : nat -> Z.

Definition utcnow : M Z :=
  fun w =>
    ret (clock (tick w),
         {| tick := S (tick w); engine_cache := engine_cache w |}).

(** *** [InsightCache] *)

Definition _generate_key (years : option (list Z))
    (industries : option (list string)) : string :=
  let filter_str := Json.dumps years industries in
  Md5.hexdigest filter_str.

Definition cache_get (years : option (list Z))
    (industries : option (list string)) : M (option (list InsightObject)) :=
  fun w =>
    let c := engine_cache w in
    let key := _generate_key years industries in
    match get String.eqb (cache c) key with
    | Some (insights, timestamp) =>
        (now <~ utcnow ;;
         fun w' =>
           if (now - timestamp <? timedelta_minutes (ttl_minutes c))%Z then
             ret (Some insights, w')
           else
             ret (None,
                  {| tick := tick w';
                     engine_cache :=
                       {| cache := del String.eqb (cache c) key;
                          ttl_minutes := ttl_minutes c |} |})) w
    | None => ret (None, w)
    end.

Definition cache_set (years : option (list Z))
    (industries : option (list string)) (insights : list InsightObject)
  : M unit :=
  let key := _generate_key years industries in
  now <~ utcnow ;;
  fun w =>
    let c := engine_cache w in
    ret (tt,
         {| tick := tick w;
            engine_cache :=
              {| cache := set String.eqb (cache c) key (insights, now);
                 ttl_minutes := ttl_minutes c |} |}).

Definition cache_clear : M unit :=
  fun w =>
    ret (tt,
         {| tick := tick w;
            engine_cache :=
              {| cache := []; ttl_minutes := ttl_minutes (engine_cache w) |} |}).

(** *** Generators *)

Definition _generate_adoption_insights (records : list GenAIAdoptionRecord)
  : M (list InsightObject) :=
  match records with
  | [] => mret []
  | _ :: _ =>
      let industry_adoption :=
        fold_left
          (fun d record =>
             append_to String.eqb d (value (industry record))
                       (adoption_rate record))
          records [] in
      industry_averages <~ lift (map_values_exc mean industry_adoption) ;;
      let high_adoption_industries :=
        map fst
            (filter (fun kv => if Rgt_dec (snd kv) 0.6 then true else false)
                    industry_averages) in
      match high_adoption_industries with
      | [] => mret []
      | _ :: _ =>
          top_industry <~ lift (max_key industry_averages) ;;
          top_rate <~ lift (getitem String.eqb industry_averages top_industry) ;;
          let rates :=
            match get String.eqb industry_adoption top_industry with
            | Some l => l
            | None => []
            end in
          let sample_size := len rates in
          let confidence := Rmin 0.95 (IZR sample_size / 10) in
          t_id <~ utcnow ;;
          t_at <~ utcnow ;;
          mret
            [ {| id := [Lit "adoption_leader_"; Stamp (seconds_of t_id)];
                 title := "Industry Leadership in GenAI Adoption";
                 short_text :=
                   [Lit top_industry; Lit " leads with "; Percent1 top_rate;
                    Lit " adoption rate"];
                 details :=
                   [Lit top_industry;
                    Lit " demonstrates the highest GenAI adoption rate at ";
                    Percent1 top_rate;
                    Lit ", ";
                    Lit "significantly outpacing industry averages. This leadership position indicates ";
                    Lit "mature AI infrastructure and strategic commitment to generative AI technologies."];
                 confidence := confidence;
                 data_slice_url :=
                   _generate_data_slice_url
                     [("industry", top_industry); ("metric", "adoption")]%string;
                 computed_at := t_at;
                 category := "adoption_trends";
                 statistical_data :=
                   [("adoption_rate", SFloat top_rate);
                    ("sample_size", SInt sample_size);
                    ("industry_count", SInt (len industry_averages))]%string
              |} ]
      end
  end.

Definition key_eqb (a b : string * Z) : bool :=
  String.eqb (fst a) (fst b) && Z.eqb (snd a) (snd b).

(** The matched data points of [_generate_correlation_insights]: adoption
    rate and usage score for every key of [genai_lookup] that [aws_lookup]
    has too, in the order of [genai_lookup]. *)
Definition matched_values (genai_records : list GenAIAdoptionRecord)
    (aws_records : list AWSUsageRecord) : list R * list R :=
  let genai_lookup :=
    fold_left
      (fun d record =>
         set key_eqb d (value (industry record), year record) record)
      genai_records [] in
  let aws_lookup :=
    fold_left
      (fun d record =>
         set key_eqb d (value (industry record), year record) record)
      aws_records [] in
  fold_left
    (fun acc kv =>
       match get key_eqb aws_lookup (fst kv) with
       | Some aws_record =>
           (fst acc ++ [adoption_rate (snd kv)],
            snd acc ++ [aws_score aws_record])
       | None => acc
       end)
    genai_lookup ([], []).

Definition _generate_correlation_insights
    (genai_records : list GenAIAdoptionRecord)
    (aws_records : list AWSUsageRecord) : M (list InsightObject) :=
  match genai_records, aws_records with
  | [], _ => mret []
  | _, [] => mret []
  | _, _ =>
      let '(genai_values, aws_values) :=
        matched_values genai_records aws_records in
      if (len genai_values >=? 3)%Z then
        res <~ lift (_calculate_pearson_correlation genai_values aws_values) ;;
        let '(correlation, p_value, n) := res in
        let cohens_d := Rabs correlation in
        let confidence := _calculate_confidence p_value n cohens_d in
        if Rgt_dec (Rabs correlation) 0.3 then
          let correlation_strength :=
            if Rgt_dec (Rabs correlation) 0.7 then "strong"%string
            else "moderate"%string in
          let positive := if Rgt_dec correlation 0 then true else false in
          let direction :=
            if positive then "positive"%string else "negative"%string in
          t_id <~ utcnow ;;
          t_at <~ utcnow ;;
          mret
            [ {| id := [Lit "correlation_"; Stamp (seconds_of t_id)];
                 title := "GenAI-AWS Usage Correlation Analysis";
                 short_text :=
                   [Lit (str_title correlation_strength); Lit " ";
                    Lit direction; Lit " correlation detected (r=";
                    Repr correlation; Lit ")"];
                 details :=
                   [Lit "Statistical analysis reveals a ";
                    Lit correlation_strength; Lit " "; Lit direction;
                    Lit " correlation ";
                    Lit "(r="; Repr correlation; Lit ", p="; Fixed3 p_value;
                    Lit ") between GenAI adoption rates and AWS service usage. ";
                    Lit "This suggests that ";
                    Lit (if positive then "higher" else "lower");
                    Lit " cloud infrastructure ";
                    Lit "utilization is associated with ";
                    Lit (if positive then "increased" else "decreased");
                    Lit " ";
                    Lit "GenAI adoption across industries."];
                 confidence := confidence;
                 data_slice_url :=
                   _generate_data_slice_url [("metric", "correlation")]%string;
                 computed_at := t_at;
                 category := "correlation_analysis";
                 statistical_data :=
                   [("correlation_coefficient", SFloat correlation);
                    ("p_value", SFloat p_value);
                    ("sample_size", SInt n);
                    ("cohens_d", SFloat cohens_d);
                    ("effect_size",
                     SStr (if Rgt_dec (Rabs correlation) 0.7 then "large"
                           else if Rgt_dec (Rabs correlation) 0.3 then "medium"
                           else "small"))]%string
              |} ]
        else mret []
      else mret []
  end.

(** [industry_year_data] of [_generate_growth_insights]: adoption rates by
    industry, then by year, for the records that pass the two filters. *)
Definition industry_year_data (all_records : list GenAIAdoptionRecord)
    (years : option (list Z)) (industries : option (list string))
  : list (string * list (Z * list R)) :=
  fold_left
    (fun d record =>
       if excluded_industry industries (industry record) then d
       else if excluded_year years (year record) then d
       else
         let year_data :=
           match get String.eqb d (value (industry record)) with
           | Some yd => yd
           | None => []
           end in
         set String.eqb d (value (industry record))
             (append_to Z.eqb year_data (year record) (adoption_rate record)))
    all_records [].

(** [year_data[y]] on the inner [defaultdict(list)]. *)
Definition rates_of_year (year_data : list (Z * list R)) (y : Z) : list R :=
  match get Z.eqb year_data y with
  | Some l => l
  | None => []
  end.

(** The inner loop: one growth rate per pair of neighbouring years whose
    earlier mean is positive. *)
Definition growth_rates_of (year_data : list (Z * list R)) : Exc (list R) :=
  let years_sorted := sorted (keys year_data) in
  fold_exc
    (fun growth_rates pair =>
       let prev_year := fst pair in
       let curr_year := snd pair in
       prev_avg <- mean (rates_of_year year_data prev_year) ;;
       curr_avg <- mean (rates_of_year year_data curr_year) ;;
       if Rgt_dec prev_avg 0 then
         growth_rate <- fdiv (curr_avg - prev_avg) prev_avg ;;
         ret (growth_rates ++ [growth_rate])
       else ret growth_rates)
    (consecutive years_sorted) [].

(** The outer loop: the average growth of every industry that has one. *)
Definition industry_growth_rates (iyd : list (string * list (Z * list R)))
  : Exc (list (string * R)) :=
  fold_exc
    (fun d entry =>
       let industry := fst entry in
       let year_data := snd entry in
       let years_sorted := sorted (keys year_data) in
       if (len years_sorted <? 2)%Z then ret d
       else
         growth_rates <- growth_rates_of year_data ;;
         match growth_rates with
         | [] => ret d
         | _ :: _ =>
             avg_growth <- mean growth_rates ;;
             ret (set String.eqb d industry avg_growth)
         end)
    iyd [].

Definition _generate_growth_insights (all_records : list GenAIAdoptionRecord)
    (years : option (list Z)) (industries : option (list string))
  : M (list InsightObject) :=
  match all_records with
  | [] => mret []
  | _ :: _ =>
      let iyd := industry_year_data all_records years industries in
      rates <~ lift (industry_growth_rates iyd) ;;
      match rates with
      | [] => mret []
      | _ :: _ =>
          fastest_industry <~ lift (max_key rates) ;;
          fastest_rate <~ lift (getitem String.eqb rates fastest_industry) ;;
          if Rgt_dec fastest_rate 0.1 then
            let year_data :=
              match get String.eqb iyd fastest_industry with
              | Some yd => yd
              | None => []
              end in
            let sample_size := len year_data in
            let confidence := Rmin 0.9 (IZR sample_size / 5) in
            t_id <~ utcnow ;;
            t_at <~ utcnow ;;
            mret
              [ {| id := [Lit "growth_leader_"; Stamp (seconds_of t_id)];
                   title := "Fastest Growing Industry Identified";
                   short_text :=
                     [Lit fastest_industry; Lit " shows ";
                      Percent1 fastest_rate; Lit " average growth rate"];
                   details :=
                     [Lit fastest_industry;
                      Lit " demonstrates the highest growth trajectory with an average ";
                      Lit "year-over-year growth rate of ";
                      Percent1 fastest_rate;
                      Lit ". This accelerated adoption ";
                      Lit "indicates strong market momentum and suggests significant investment opportunities ";
                      Lit "in GenAI technologies within this sector."];
                   confidence := confidence;
                   data_slice_url :=
                     _generate_data_slice_url
                       [("industry", fastest_industry); ("metric", "growth")]%string;
                   computed_at := t_at;
                   category := "growth_trends";
                   statistical_data :=
                     [("growth_rate", SFloat fastest_rate);
                      ("sample_size", SInt sample_size);
                      ("years_analyzed", SInt (len year_data))]%string
                |} ]
          else mret []
      end
  end.

(** [investment_efficiency] of [_generate_investment_insights]: industry,
    cost per use case and investment of every record that has use cases. *)
Definition investment_efficiency (records : list GenAIAdoptionRecord)
  : Exc (list (string * R * R)) :=
  fold_exc
    (fun acc record =>
       if (use_cases_count record >? 0)%Z then
         efficiency <-
           fdiv (investment_millions record) (IZR (use_cases_count record)) ;;
         ret (acc ++ [(value (industry record), efficiency,
                       investment_millions record)])
       else ret acc)
    records [].

Definition industry_efficiency (ie : list (string * R * R))
  : list (string * list R) :=
  fold_left
    (fun d item => append_to String.eqb d (fst (fst item)) (snd (fst item)))
    ie [].

Definition _generate_investment_insights (records : list GenAIAdoptionRecord)
  : M (list InsightObject) :=
  match records with
  | [] => mret []
  | _ :: _ =>
      ie <~ lift (investment_efficiency records) ;;
      match ie with
      | [] => mret []
      | _ :: _ =>
          let by_industry := industry_efficiency ie in
          industry_avg_efficiency <~ lift (map_values_exc mean by_industry) ;;
          most_efficient <~ lift (min_key industry_avg_efficiency) ;;
          efficiency_value <~
            lift (getitem String.eqb industry_avg_efficiency most_efficient) ;;
          let effs :=
            match get String.eqb by_industry most_efficient with
            | Some l => l
            | None => []
            end in
          let sample_size := len effs in
          let confidence := Rmin 0.85 (IZR sample_size / 8) in
          t_id <~ utcnow ;;
          t_at <~ utcnow ;;
          mret
            [ {| id := [Lit "investment_efficiency_"; Stamp (seconds_of t_id)];
                 title := "Investment Efficiency Leader";
                 short_text :=
                   [Lit most_efficient; Lit " shows highest ROI at $";
                    Fixed1 efficiency_value; Lit "M per use case"];
                 details :=
                   [Lit most_efficient;
                    Lit " demonstrates the most efficient GenAI investment strategy with ";
                    Lit "an average of $"; Fixed1 efficiency_value;
                    Lit "M per use case. This efficiency suggests ";
                    Lit "optimized resource allocation and strategic focus on high-impact AI applications."];
                 confidence := confidence;
                 data_slice_url :=
                   _generate_data_slice_url
                     [("industry", most_efficient); ("metric", "investment")]%string;
                 computed_at := t_at;
                 category := "investment_analysis";
                 statistical_data :=
                   [("efficiency_ratio", SFloat efficiency_value);
                    ("sample_size", SInt sample_size);
                    ("total_industries", SInt (len industry_avg_efficiency))]%string
              |} ]
      end
  end.

(** *** [InsightsEngine.generate_insights]

    [genai_records] and [aws_records] are what the two loader calls of this
    invocation return. *)
Definition generate_insights (genai_records : list GenAIAdoptionRecord)
    (aws_records : list AWSUsageRecord) (years : option (list Z))
    (industries : option (list string)) : M (list InsightObject) :=
  cached_insights <~ cache_get years industries ;;
  if truthy cached_insights then
    mret (match cached_insights with Some l => l | None => [] end)
  else
    let filtered_genai := _apply_filters genai_records years industries in
    let filtered_aws := _apply_filters aws_records years industries in
    i1 <~ _generate_adoption_insights filtered_genai ;;
    i2 <~ _generate_correlation_insights filtered_genai filtered_aws ;;
    i3 <~ _generate_growth_insights genai_records years industries ;;
    i4 <~ _generate_investment_insights filtered_genai ;;
    let insights := [] ++ i1 ++ i2 ++ i3 ++ i4 in
    _ <~ cache_set years industries insights ;;
    mret insights.

End Engine.
(** ** Pearson correlation: the quantities the source computes *)

Definition mean_of (l : list R) : R := sum l / IZR (len l).

(** [numerator] *)
Definition covariation (x y : list R) : R :=
  sum (map (fun xy => (fst xy - mean_of x) * (snd xy - mean_of y))
           (combine x y)).

(** [sum_sq_x], [sum_sq_y] *)
Definition sum_sq (x : list R) : R :=
  sum (map (fun a => (a - mean_of x) ^ 2) x).






(** ** Specification-side definitions *)

(** The filter as the specification words it: a given set admits its
    members, an absent set admits everything. *)
Definition admits_year (years : option (list Z)) (y : Z) : bool :=
  match years with
  | None => true
  | Some l => in_Z y l
  end.

Definition admits_industry (industries : option (list string))
    (i : IndustryEnum) : bool :=
  match industries with
  | None => true
  | Some l => in_str (value i) l
  end.

Definition filter_spec {A : Type} `{RecordLike A} (records : list A)
    (years : option (list Z)) (industries : option (list string)) : list A :=
  filter
    (fun r => admits_year years (year r) && admits_industry industries (industry r))
    records.

(** What the code admits: an empty list counts as no list. *)
Definition passes_year (years : option (list Z)) (y : Z) : bool :=
  match years with
  | None | Some [] => true
  | Some l => in_Z y l
  end.

Definition passes_industry (industries : option (list string))
    (i : IndustryEnum) : bool :=
  match industries with
  | None | Some [] => true
  | Some l => in_str (value i) l
  end.

Definition sample_record : GenAIAdoptionRecord :=
  {| genai_industry := HEALTHCARE; genai_year := 2023;
     adoption_rate := 0.5; use_cases_count := 10; investment_millions := 50 |}.






(** ** Grouping, as the generators do it and as the specification reads it *)

(** The values filed under [k]: what [defaultdict(list)] holds at [k] after
    [for it in l: d[key(it)].append(val(it))]. *)
Definition values_for {K A W : Type} (eqb : K -> K -> bool) (key : A -> K)
    (val : A -> W) (k : K) (l : list A) : list W :=
  map val (filter (fun it => eqb k (key it)) l).

Definition group {K A W : Type} (eqb : K -> K -> bool) (key : A -> K)
    (val : A -> W) (l : list A) : list (K * list W) :=
  fold_left (fun d it => append_to eqb d (key it) (val it)) l [].

Definition industry_eqb (a b : IndustryEnum) : bool :=
  String.eqb (value a) (value b).

(** *** Investment efficiency, in the specification's words *)

Definition cost_per_use_case (r : GenAIAdoptionRecord) : R :=
  investment_millions r / IZR (use_cases_count r).

(** The ratios of the records of industry [i] that have use cases. *)
Definition efficiencies_of (records : list GenAIAdoptionRecord)
    (i : IndustryEnum) : list R :=
  map cost_per_use_case
      (filter (fun r => (use_cases_count r >? 0)%Z && industry_eqb i (industry r))
              records).

Definition avg_efficiency (records : list GenAIAdoptionRecord)
    (i : IndustryEnum) : R :=
  mean_of (efficiencies_of records i).

(** *** Growth trend, in the specification's words *)

(** The records the growth generator groups: those that pass both filters. *)
Definition selected (records : list GenAIAdoptionRecord)
    (years : option (list Z)) (industries : option (list string))
  : list GenAIAdoptionRecord :=
  filter
    (fun r => negb (excluded_industry industries (industry r))
              && negb (excluded_year years (year r)))
    records.

Definition of_industry (i : IndustryEnum) (recs : list GenAIAdoptionRecord)
  : list GenAIAdoptionRecord :=
  filter (fun r => industry_eqb i (industry r)) recs.

(** Mean adoption rate of the records of year [y]. *)
Definition year_mean (recs : list GenAIAdoptionRecord) (y : Z) : R :=
  mean_of (values_for Z.eqb year adoption_rate y recs).

Definition distinct_years (recs : list GenAIAdoptionRecord) : list Z :=
  nodup Z.eq_dec (map year recs).

(** Growth from one year to the next one present; nothing when the earlier
    mean is not positive. *)
Definition growth_between (recs : list GenAIAdoptionRecord) (pair : Z * Z)
  : list R :=
  let prev := year_mean recs (fst pair) in
  let curr := year_mean recs (snd pair) in
  if Rgt_dec prev 0 then [(curr - prev) / prev] else [].

Definition yearly_growth (recs : list GenAIAdoptionRecord) : list R :=
  flat_map (growth_between recs) (consecutive (sorted (distinct_years recs))).

(** Average growth of a set of records, when it has a growth rate at all. *)
Definition avg_growth (recs : list GenAIAdoptionRecord) : option R :=
  match yearly_growth recs with
  | [] => None
  | _ :: _ => Some (mean_of (yearly_growth recs))
  end.

(** The loops of the growth generator as pure functions of the grouped
    data: what they compute when nothing raises. *)
Definition year_data_growth (year_data : list (Z * list R)) : list R :=
  flat_map
    (fun pair =>
       let prev_avg := mean_of (rates_of_year year_data (fst pair)) in
       let curr_avg := mean_of (rates_of_year year_data (snd pair)) in
       if Rgt_dec prev_avg 0 then [(curr_avg - prev_avg) / prev_avg] else [])
    (consecutive (sorted (keys year_data))).

Definition year_data_avg (year_data : list (Z * list R)) : option R :=
  match year_data_growth year_data with
  | [] => None
  | _ :: _ => Some (mean_of (year_data_growth year_data))
  end.

Definition growth_rates_pure (iyd : list (string * list (Z * list R)))
  : list (string * R) :=
  fold_left
    (fun d entry =>
       match year_data_avg (snd entry) with
       | Some avg_growth => set String.eqb d (fst entry) avg_growth
       | None => d
       end)
    iyd [].

Definition year_group (recs : list GenAIAdoptionRecord) : list (Z * list R) :=
  group Z.eqb year adoption_rate recs.

(** What the generators build, as functions of what they select. *)
Definition growth_insight (fastest_industry : string) (fastest_rate : R)
    (sample_size : Z) (t_id t_at : Z) : InsightObject :=
  {| id := [Lit "growth_leader_"; Stamp (seconds_of t_id)];
     title := "Fastest Growing Industry Identified";
     short_text :=
       [Lit fastest_industry; Lit " shows ";
        Percent1 fastest_rate; Lit " average growth rate"];
     details :=
       [Lit fastest_industry;
        Lit " demonstrates the highest growth trajectory with an average ";
        Lit "year-over-year growth rate of ";
        Percent1 fastest_rate;
        Lit ". This accelerated adoption ";
        Lit "indicates strong market momentum and suggests significant investment opportunities ";
        Lit "in GenAI technologies within this sector."];
     confidence := Rmin 0.9 (IZR sample_size / 5);
     data_slice_url :=
       _generate_data_slice_url
         [("industry", fastest_industry); ("metric", "growth")]%string;
     computed_at := t_at;
     category := "growth_trends";
     statistical_data :=
       [("growth_rate", SFloat fastest_rate);
        ("sample_size", SInt sample_size);
        ("years_analyzed", SInt sample_size)]%string
  |}.

(** *** The cache round trip *)

Definition ticked (n : nat) (w : World) : World :=
  {| tick := n + tick w; engine_cache := engine_cache w |}.

(** The miss path of [generate_insights]: filter, run the four generators,
    store, return. *)
Definition compute_and_store (clock : nat -> Z)
    (genai_records : list GenAIAdoptionRecord)
    (aws_records : list AWSUsageRecord) (years : option (list Z))
    (industries : option (list string)) : M (list InsightObject) :=
  let filtered_genai := _apply_filters genai_records years industries in
  let filtered_aws := _apply_filters aws_records years industries in
  i1 <~ _generate_adoption_insights clock filtered_genai ;;
  i2 <~ _generate_correlation_insights clock filtered_genai filtered_aws ;;
  i3 <~ _generate_growth_insights clock genai_records years industries ;;
  i4 <~ _generate_investment_insights clock filtered_genai ;;
  let insights := [] ++ i1 ++ i2 ++ i3 ++ i4 in
  _ <~ cache_set clock years industries insights ;;
  mret insights.

(** A computation that leaves the engine's cache as it found it. *)
Definition keeps_cache {A : Type} (m : M A) : Prop :=
  forall (w w' : World) (a : A),
    m w = ret (a, w') -> engine_cache w' = engine_cache w.

Definition with_cache (w : World)
    (c : list (string * (list InsightObject * Z))) : World :=
  {| tick := tick w;
     engine_cache :=
       {| cache := c; ttl_minutes := ttl_minutes (engine_cache w) |} |}.

Definition efficiency_item (r : GenAIAdoptionRecord) : string * R * R :=
  (value (industry r), cost_per_use_case r, investment_millions r).

Definition investment_insight (most_efficient : string) (efficiency_value : R)
    (sample_size total : Z) (t_id t_at : Z) : InsightObject :=
  {| id := [Lit "investment_efficiency_"; Stamp (seconds_of t_id)];
     title := "Investment Efficiency Leader";
     short_text :=
       [Lit most_efficient; Lit " shows highest ROI at $";
        Fixed1 efficiency_value; Lit "M per use case"];
     details :=
       [Lit most_efficient;
        Lit " demonstrates the most efficient GenAI investment strategy with ";
        Lit "an average of $"; Fixed1 efficiency_value;
        Lit "M per use case. This efficiency suggests ";
        Lit "optimized resource allocation and strategic focus on high-impact AI applications."];
     confidence := Rmin 0.85 (IZR sample_size / 8);
     data_slice_url :=
       _generate_data_slice_url
         [("industry", most_efficient); ("metric", "investment")]%string;
     computed_at := t_at;
     category := "investment_analysis";
     statistical_data :=
       [("efficiency_ratio", SFloat efficiency_value);
        ("sample_size", SInt sample_size);
        ("total_industries", SInt total)]%string
  |}.

Definition adoption_record (i : IndustryEnum) (y : Z) (rate : R) (uc : Z)
    (inv : R) : GenAIAdoptionRecord :=
  {| genai_industry := i; genai_year := y; adoption_rate := rate;
     use_cases_count := uc; investment_millions := inv |}.


Definition zero_then_half : list GenAIAdoptionRecord :=
  [adoption_record HEALTHCARE 2022 0 10 50;
   adoption_record HEALTHCARE 2023 0.5 15 80].

(** The clock of the examples: one microsecond per reading. *)
Definition tick_clock (n : nat) : Z := Z.of_nat n.

Definition one_record : list GenAIAdoptionRecord :=
  [adoption_record HEALTHCARE 2023 0.5 5 10].

(** One step of the loop that builds [industry_year_data]. *)
Definition growth_step (years : option (list Z))
    (industries : option (list string))
    (d : list (string * list (Z * list R)))
    (record : GenAIAdoptionRecord) : list (string * list (Z * list R)) :=
  if excluded_industry industries (industry record) then d
  else if excluded_year years (year record) then d
  else
    let year_data :=
      match get String.eqb d (value (industry record)) with
      | Some yd => yd
      | None => []
      end in
    set String.eqb d (value (industry record))
        (append_to Z.eqb year_data (year record) (adoption_rate record)).


(** ** The rest of the engine *)




(** *** What the other two generators build and read *)

Definition adoption_rates_of (records : list GenAIAdoptionRecord)
    (i : IndustryEnum) : list R :=
  map adoption_rate (filter (fun r => industry_eqb i (industry r)) records).

Definition avg_adoption (records : list GenAIAdoptionRecord)
    (i : IndustryEnum) : R :=
  mean_of (adoption_rates_of records i).

Definition adoption_insight (top_industry : string) (top_rate : R)
    (sample_size industry_count : Z) (t_id t_at : Z) : InsightObject :=
  {| id := [Lit "adoption_leader_"; Stamp (seconds_of t_id)];
     title := "Industry Leadership in GenAI Adoption";
     short_text :=
       [Lit top_industry; Lit " leads with "; Percent1 top_rate;
        Lit " adoption rate"];
     details :=
       [Lit top_industry;
        Lit " demonstrates the highest GenAI adoption rate at ";
        Percent1 top_rate;
        Lit ", ";
        Lit "significantly outpacing industry averages. This leadership position indicates ";
        Lit "mature AI infrastructure and strategic commitment to generative AI technologies."];
     confidence := Rmin 0.95 (IZR sample_size / 10);
     data_slice_url :=
       _generate_data_slice_url
         [("industry", top_industry); ("metric", "adoption")]%string;
     computed_at := t_at;
     category := "adoption_trends";
     statistical_data :=
       [("adoption_rate", SFloat top_rate);
        ("sample_size", SInt sample_size);
        ("industry_count", SInt industry_count)]%string
  |}.

Definition correlation_insight (correlation p_value : R) (n : Z)
    (t_id t_at : Z) : InsightObject :=
  let correlation_strength :=
    if Rgt_dec (Rabs correlation) 0.7 then "strong"%string
    else "moderate"%string in
  let positive := if Rgt_dec correlation 0 then true else false in
  let direction := if positive then "positive"%string else "negative"%string in
  {| id := [Lit "correlation_"; Stamp (seconds_of t_id)];
     title := "GenAI-AWS Usage Correlation Analysis";
     short_text :=
       [Lit (str_title correlation_strength); Lit " ";
        Lit direction; Lit " correlation detected (r=";
        Repr correlation; Lit ")"];
     details :=
       [Lit "Statistical analysis reveals a ";
        Lit correlation_strength; Lit " "; Lit direction;
        Lit " correlation ";
        Lit "(r="; Repr correlation; Lit ", p="; Fixed3 p_value;
        Lit ") between GenAI adoption rates and AWS service usage. ";
        Lit "This suggests that ";
        Lit (if positive then "higher" else "lower");
        Lit " cloud infrastructure ";
        Lit "utilization is associated with ";
        Lit (if positive then "increased" else "decreased");
        Lit " ";
        Lit "GenAI adoption across industries."];
     confidence := _calculate_confidence p_value n (Rabs correlation);
     data_slice_url :=
       _generate_data_slice_url [("metric", "correlation")]%string;
     computed_at := t_at;
     category := "correlation_analysis";
     statistical_data :=
       [("correlation_coefficient", SFloat correlation);
        ("p_value", SFloat p_value);
        ("sample_size", SInt n);
        ("cohens_d", SFloat (Rabs correlation));
        ("effect_size",
         SStr (if Rgt_dec (Rabs correlation) 0.7 then "large"
               else if Rgt_dec (Rabs correlation) 0.3 then "medium"
               else "small"))]%string
  |}.

(** The p-values [_calculate_pearson_correlation] can return. *)
Definition p_values : list R := [0.001; 0.01; 0.05; 0.10; 0.20; 1].

Definition usage_record (i : IndustryEnum) (y : Z) (v : R) : AWSUsageRecord :=
  {| aws_industry := i; aws_year := y;
     bedrock_usage := v; sagemaker_usage := v; lambda_usage := v;
     s3_usage := v; ec2_usage := v |}.

(** *** What every result of the engine looks like *)

(** At most one insight per generator, in the generators' order, each with
    a confidence in [0, 0.95]. *)
Definition well_formed (out : list InsightObject) : Prop :=
  (exists b1 b2 b3 b4 : bool,
     map category out
     = (if b1 then ["adoption_trends"%string] else [])
       ++ (if b2 then ["correlation_analysis"%string] else [])
       ++ (if b3 then ["growth_trends"%string] else [])
       ++ (if b4 then ["investment_analysis"%string] else []))
  /\ Forall (fun ins => 0 <= confidence ins <= 0.95) out.

(** A cache that holds only such results. *)
Definition cache_ok (w : World) : Prop :=
  forall (k : string) (insights : list InsightObject) (ts : Z),
    In (k, (insights, ts)) (cache (engine_cache w)) -> well_formed insights.

(** Three (industry, year) keys with adoption rate 1.0 and every usage
    fraction at 1.0. *)
Definition saturated_adoption : list GenAIAdoptionRecord :=
  [adoption_record HEALTHCARE 2021 1 5 10;
   adoption_record HEALTHCARE 2022 1 5 10;
   adoption_record HEALTHCARE 2023 1 5 10].


(** A clock that advances ten minutes per reading. *)
Definition slow_clock (n : nat) : Z := (Z.of_nat n * 600000000)%Z.

(** A world whose cache holds one entry, stored at time 0 under the key of
    the unfiltered request. *)
Definition one_entry_world (insights : list InsightObject) : World :=
  {| tick := 1;
     engine_cache :=
       {| cache := [(_generate_key None None, (insights, 0%Z))];
          ttl_minutes := 10 |} |}.


(** * Proofs *)

(** ** Rounding and the confidence score *)

Lemma Int_part_IZR (k : Z) : Int_part (IZR k) = k.
Proof. symmetry. apply Int_part_spec. lra. Qed.

Lemma Int_part_le (x y : R) : x <= y -> (Int_part x <= Int_part y)%Z.
Proof.
  intros Hxy.
  destruct (base_Int_part x) as [Hx1 Hx2], (base_Int_part y) as [Hy1 Hy2].
  apply Z.lt_succ_r. apply lt_IZR. rewrite succ_IZR. lra.
Qed.

Lemma round_half_even_IZR (k : Z) : round_half_even (IZR k) = k.
Proof.
  unfold round_half_even. rewrite Int_part_IZR.
  destruct (Rlt_dec (IZR k - IZR k) (1 / 2)); [reflexivity | lra].
Qed.

Lemma round_half_even_bounds (x : R) :
  (Int_part x <= round_half_even x <= Int_part x + 1)%Z.
Proof.
  unfold round_half_even.
  destruct (Rlt_dec _ _); [lia |].
  destruct (Rlt_dec _ _); [lia |].
  destruct (Z.even _); lia.
Qed.

Lemma round_half_even_mono (x y : R) :
  x <= y -> (round_half_even x <= round_half_even y)%Z.
Proof.
  intros Hxy.
  pose proof (Int_part_le x y Hxy) as Hfg.
  destruct (Z.eq_dec (Int_part x) (Int_part y)) as [E | NE].
  - unfold round_half_even. rewrite E.
    destruct (Rlt_dec (x - IZR (Int_part y)) (1 / 2)),
             (Rlt_dec (y - IZR (Int_part y)) (1 / 2));
      try lra; try lia.
    + destruct (Rlt_dec (1 / 2) (y - IZR (Int_part y))); [lia |].
      destruct (Z.even (Int_part y)); lia.
    + destruct (Rlt_dec (1 / 2) (x - IZR (Int_part y))),
               (Rlt_dec (1 / 2) (y - IZR (Int_part y)));
        try lra; try lia; destruct (Z.even (Int_part y)); lia.
  - pose proof (round_half_even_bounds x). pose proof (round_half_even_bounds y).
    lia.
Qed.



Lemma pow10_pos (n : nat) : 0 < 10 ^ n.
Proof. apply pow_lt. lra. Qed.

Lemma round_mono (x y : R) (n : nat) : x <= y -> round x n <= round y n.
Proof.
  intros Hxy. unfold round. pose proof (pow10_pos n) as Hp.
  apply Rmult_le_compat_r; [left; now apply Rinv_0_lt_compat |].
  apply IZR_le, round_half_even_mono. nra.
Qed.

Lemma round3_of_thousandth (k : Z) : round (IZR k / 1000) 3 = IZR k / 1000.
Proof.
  unfold round.
  replace (IZR k / 1000 * 10 ^ 3) with (IZR k) by (simpl; lra).
  rewrite round_half_even_IZR. simpl. lra.
Qed.




(** ** Filters, cache keys and the usage score *)

Lemma excluded_year_passes (years : option (list Z)) (y : Z) :
  excluded_year years y = negb (passes_year years y).
Proof. destruct years as [[| a l] |]; reflexivity. Qed.

Lemma excluded_industry_passes (industries : option (list string))
    (i : IndustryEnum) :
  excluded_industry industries i = negb (passes_industry industries i).
Proof. destruct industries as [[| a l] |]; reflexivity. Qed.

(** C2, as amended: [_apply_filters] keeps, in their original order, exactly
    the records whose year is in the year list (or the list is absent or
    empty) and whose industry is in the industry list (or that list is absent
    or empty); it is a total function, so no input is an error. *)
Theorem apply_filters_is_filter :
  forall (A : Type) (RL : RecordLike A) (records : list A)
         (years : option (list Z)) (industries : option (list string)),
    _apply_filters records years industries
    = filter
        (fun r => passes_year years (year r)
                  && passes_industry industries (industry r))
        records.
Proof.
  intros A RL records years industries.
  induction records as [| r rest IH]; [reflexivity |].
  cbn [_apply_filters filter].
  rewrite excluded_year_passes, excluded_industry_passes, IH.
  destruct (passes_year years (year r));
    destruct (passes_industry industries (industry r)); reflexivity.
Qed.

(** C2 as stated fails: an empty year list is a given set that admits no
    year, yet the code returns every record. *)
Lemma apply_filters_empty_year_list :
  _apply_filters [sample_record] (Some []) None = [sample_record]
  /\ filter_spec [sample_record] (Some []) None = []
  /\ _apply_filters [sample_record] (Some []) None
     <> filter_spec [sample_record] (Some []) None.
Proof. repeat split. discriminate. Qed.

Lemma sorted_perm_eq {A : Type} (le : A -> A -> Prop) :
  (forall a b, le a b -> le b a -> a = b) ->
  forall l1 l2 : list A,
    StronglySorted le l1 -> StronglySorted le l2 -> Permutation l1 l2 ->
    l1 = l2.
Proof.
  intros antisym l1.
  induction l1 as [| a l1 IH]; intros l2 S1 S2 P.
  - apply Permutation_nil in P. now subst.
  - destruct l2 as [| b l2];
      [apply Permutation_sym, Permutation_nil in P; discriminate |].
    apply StronglySorted_inv in S1 as [S1 F1].
    apply StronglySorted_inv in S2 as [S2 F2].
    assert (a = b) as ->.
    { assert (Ha : In a (b :: l2))
        by (eapply Permutation_in; [exact P | now left]).
      assert (Hb : In b (a :: l1))
        by (eapply Permutation_in; [apply Permutation_sym; exact P | now left]).
      destruct Ha as [-> | Ha]; [reflexivity |].
      destruct Hb as [-> | Hb]; [reflexivity |].
      rewrite Forall_forall in F1, F2. apply antisym; auto. }
    f_equal. apply IH; auto. eapply Permutation_cons_inv; exact P.
Qed.







(** ** Pearson correlation: evaluation *)

Lemma fold_left_Rplus (l : list R) (a : R) :
  fold_left Rplus l a = a + fold_left Rplus l 0.
Proof.
  revert a. induction l as [| b l IH]; intros a; cbn.
  - lra.
  - rewrite (IH (a + b)), (IH (0 + b)). lra.
Qed.

Lemma sum_nil : sum [] = 0.
Proof. reflexivity. Qed.

Lemma sum_cons (a : R) (l : list R) : sum (a :: l) = a + sum l.
Proof. unfold sum. cbn. rewrite fold_left_Rplus. lra. Qed.

Lemma sum_app (l1 l2 : list R) : sum (l1 ++ l2) = sum l1 + sum l2.
Proof.
  induction l1 as [| a l1 IH]; cbn [app].
  - rewrite sum_nil. lra.
  - rewrite !sum_cons, IH. lra.
Qed.

Lemma sum_squares_nonneg {A : Type} (f : A -> R) (l : list A) :
  0 <= sum (map (fun a => f a ^ 2) l).
Proof.
  induction l as [| a l IH]; cbn [map].
  - rewrite sum_nil. lra.
  - rewrite sum_cons. pose proof (pow2_ge_0 (f a)). lra.
Qed.

Lemma sum_sq_nonneg (x : list R) : 0 <= sum_sq x.
Proof. apply (sum_squares_nonneg (fun a => a - mean_of x)). Qed.

Lemma mean_ret (l : list R) : l <> [] -> mean l = ret (mean_of l).
Proof. destruct l; [congruence | reflexivity]. Qed.

Lemma len_nonneg {A : Type} (l : list A) : (0 <= len l)%Z.
Proof. unfold len. lia. Qed.


Lemma pow_half_ret (x : R) : 0 <= x -> pow_half x = ret (sqrt x).
Proof. intros H. unfold pow_half. destruct (Rlt_dec x 0); [lra | reflexivity]. Qed.

Lemma fdiv_ret (a b : R) : b <> 0 -> fdiv a b = ret (a / b).
Proof. intros H. unfold fdiv. destruct (Req_dec_T b 0); [contradiction | reflexivity]. Qed.

(** What [_calculate_pearson_correlation] returns on samples of equal
    length with at least two points: nothing raises. *)
Lemma pearson_eval (x y : list R) :
  len x = len y -> (2 <= len x)%Z ->
  _calculate_pearson_correlation x y =
  let n := len x in
  let denominator := sqrt (sum_sq x * sum_sq y) in
  if Req_dec_T denominator 0 then ret (0, 1, n)
  else
    let r := covariation x y / denominator in
    ret (round r 3,
         (if Rge_dec (Rabs r) 0.999 then 0.001
          else p_bucket (Rabs r * sqrt (IZR (n - 2) / (1 - r ^ 2)))),
         n).
Proof.
  intros Hlen Hn. unfold _calculate_pearson_correlation.
  rewrite Hlen, Z.eqb_refl. cbn [negb orb].
  destruct (Z.ltb_spec (len y) 2) as [Hlt | _]; [lia |].
  rewrite (mean_ret x) by (intros ->; cbn in Hn; lia).
  rewrite (mean_ret y) by (intros ->; cbn in Hlen, Hn; lia).
  cbn [bind ret].
  fold (covariation x y) (sum_sq x) (sum_sq y).
  pose proof (sum_sq_nonneg x) as Hx. pose proof (sum_sq_nonneg y) as Hy.
  rewrite pow_half_ret by nra. cbn [bind ret].
  rewrite <- Hlen. cbv zeta.
  destruct (Req_dec_T (sqrt (sum_sq x * sum_sq y)) 0) as [E | NE];
    [reflexivity |].
  rewrite fdiv_ret by assumption. cbn [bind ret].
  set (r := covariation x y / sqrt (sum_sq x * sum_sq y)).
  destruct (Rge_dec (Rabs r) 0.999) as [G | NG]; [reflexivity |].
  assert (Hr2 : r ^ 2 < 1).
  { assert (Rabs r < 0.999) by lra.
    rewrite <- (pow2_abs r). pose proof (Rabs_pos r). nra. }
  rewrite fdiv_ret by lra. cbn [bind ret].
  rewrite pow_half_ret; [reflexivity |].
  unfold Rdiv. apply Rmult_le_pos.
  - apply IZR_le. lia.
  - left. apply Rinv_0_lt_compat. lra.
Qed.

Lemma pearson_short (x y : list R) :
  len x <> len y \/ (len x < 2)%Z ->
  _calculate_pearson_correlation x y = ret (0, 1, 0%Z).
Proof.
  intros H. unfold _calculate_pearson_correlation.
  destruct (Z.eqb_spec (len x) (len y)) as [E | NE]; cbn [negb orb];
    [| reflexivity].
  destruct (Z.ltb_spec (len x) 2); [reflexivity | lia].
Qed.











(** ** Pearson correlation: properties *)

Section Deviations.
Variables mx my : R.


Lemma squares_left (x y : list R) :
  List.length x = List.length y ->
  sum (map (fun xy => (fst xy - mx) ^ 2) (combine x y))
  = sum (map (fun a => (a - mx) ^ 2) x).
Proof.
  revert y. induction x as [| a x IH]; intros [| b y] H; cbn [combine map];
    try reflexivity; try discriminate.
  rewrite !sum_cons, IH by (cbn in H; lia). reflexivity.
Qed.

Lemma squares_right (x y : list R) :
  List.length x = List.length y ->
  sum (map (fun xy => (snd xy - my) ^ 2) (combine x y))
  = sum (map (fun b => (b - my) ^ 2) y).
Proof.
  revert y. induction x as [| a x IH]; intros [| b y] H; cbn [combine map];
    try reflexivity; try discriminate.
  rewrite !sum_cons, IH by (cbn in H; lia). reflexivity.
Qed.

(** For every [t], the sum of [((a - mx) * t - (b - my))^2] over the pairs
    is a quadratic in [t]; it is never negative. *)
Lemma quadratic_nonneg (l : list (R * R)) (t : R) :
  0 <= sum (map (fun xy => (fst xy - mx) ^ 2) l) * t ^ 2
       - 2 * sum (map (fun xy => (fst xy - mx) * (snd xy - my)) l) * t
       + sum (map (fun xy => (snd xy - my) ^ 2) l).
Proof.
  induction l as [| [a b] l IH]; cbn [map].
  - rewrite !sum_nil. lra.
  - rewrite !sum_cons. cbn [fst snd].
    pose proof (pow2_ge_0 ((a - mx) * t - (b - my))). nra.
Qed.

Lemma cauchy_schwarz_pairs (l : list (R * R)) :
  sum (map (fun xy => (fst xy - mx) * (snd xy - my)) l) ^ 2
  <= sum (map (fun xy => (fst xy - mx) ^ 2) l)
     * sum (map (fun xy => (snd xy - my) ^ 2) l).
Proof.
  pose proof (quadratic_nonneg l) as Q.
  set (A := sum (map (fun xy => (fst xy - mx) ^ 2) l)) in *.
  set (S := sum (map (fun xy => (fst xy - mx) * (snd xy - my)) l)) in *.
  set (B := sum (map (fun xy => (snd xy - my) ^ 2) l)) in *.
  assert (HA : 0 <= A) by apply (sum_squares_nonneg (fun xy => fst xy - mx)).
  destruct (Req_dec_T A 0) as [E | NE].
  - rewrite E in *. destruct (Req_dec_T S 0) as [ES | NES].
    + rewrite ES. lra.
    + exfalso. specialize (Q ((B + 1) / (2 * S))).
      replace (2 * S * ((B + 1) / (2 * S))) with (B + 1) in Q
        by (field; assumption).
      lra.
  - specialize (Q (S / A)).
    assert (HQ : A * (S / A) ^ 2 - 2 * S * (S / A) + B = B - S ^ 2 / A)
      by (field; assumption).
    rewrite HQ in Q.
    assert (S ^ 2 / A * A = S ^ 2) by (field; assumption).
    nra.
Qed.

End Deviations.


Lemma cauchy_schwarz (x y : list R) :
  List.length x = List.length y ->
  covariation x y ^ 2 <= sum_sq x * sum_sq y.
Proof.
  intros H. unfold covariation, sum_sq.
  rewrite <- (squares_left (mean_of x) x y H).
  rewrite <- (squares_right (mean_of y) x y H).
  apply cauchy_schwarz_pairs.
Qed.



Lemma len_length {A B : Type} (x : list A) (y : list B) :
  len x = len y <-> List.length x = List.length y.
Proof. unfold len. lia. Qed.




Lemma ratio_in_unit (s d : R) : 0 < d -> s ^ 2 <= d ^ 2 -> -1 <= s / d <= 1.
Proof.
  intros Hd H.
  assert (Hs : - d <= s <= d) by nra.
  assert (Hi : 0 < / d) by now apply Rinv_0_lt_compat.
  assert (E : d * / d = 1) by (field; lra).
  unfold Rdiv. split; nra.
Qed.





(** ** Dictionaries, grouping and scans *)

(** ** Dictionaries *)

Section DictFacts.
Context {K V : Type} (eqb : K -> K -> bool).
Hypothesis eqb_spec : forall a b : K, reflect (a = b) (eqb a b).

Lemma eqb_refl_spec (k : K) : eqb k k = true.
Proof. destruct (eqb_spec k k); congruence. Qed.

Lemma get_set (d : list (K * V)) (k k' : K) (v : V) :
  get eqb (set eqb d k v) k' = if eqb k' k then Some v else get eqb d k'.
Proof.
  induction d as [| [k0 v0] d IH]; cbn [set get].
  - destruct (eqb k' k); reflexivity.
  - destruct (eqb_spec k k0) as [-> | N]; cbn [get].
    + destruct (eqb k' k0); reflexivity.
    + rewrite IH. destruct (eqb_spec k' k0) as [-> | N'];
        [| reflexivity].
      destruct (eqb_spec k0 k); [congruence | reflexivity].
Qed.

Lemma get_In (d : list (K * V)) (k : K) (v : V) :
  get eqb d k = Some v -> In (k, v) d.
Proof.
  induction d as [| [k0 v0] d IH]; cbn [get]; [discriminate |].
  destruct (eqb_spec k k0) as [-> | N].
  - intros [= ->]. now left.
  - intros H. right. auto.
Qed.

Lemma get_keys (d : list (K * V)) (k : K) :
  In k (keys d) <-> get eqb d k <> None.
Proof.
  induction d as [| [k0 v0] d IH]; cbn [keys map get fst In].
  - tauto.
  - destruct (eqb_spec k k0) as [-> | N].
    + split; [discriminate | auto].
    + unfold keys in IH. rewrite <- IH. split; [intros [E | H] | auto];
        [congruence | exact H].
Qed.

Lemma In_get (d : list (K * V)) (k : K) (v : V) :
  NoDup (keys d) -> In (k, v) d -> get eqb d k = Some v.
Proof.
  induction d as [| [k0 v0] d IH]; cbn [keys map get fst In]; [tauto |].
  intros ND [E | H].
  - injection E as -> ->. now rewrite eqb_refl_spec.
  - inversion ND as [| ? ? Hnin ND']; subst.
    destruct (eqb_spec k k0) as [-> | N].
    + exfalso. apply Hnin. change (In k0 (keys d)).
      apply (in_map fst) in H. exact H.
    + apply IH; assumption.
Qed.

Lemma keys_set (d : list (K * V)) (k : K) (v : V) :
  keys (set eqb d k v)
  = match get eqb d k with
    | Some _ => keys d
    | None => keys d ++ [k]
    end.
Proof.
  induction d as [| [k0 v0] d IH]; cbn [set get keys map fst app];
    [reflexivity |].
  destruct (eqb_spec k k0) as [-> | N]; [reflexivity |].
  cbn [map fst]. unfold keys in IH. rewrite IH.
  destruct (get eqb d k); reflexivity.
Qed.

Lemma NoDup_set (d : list (K * V)) (k : K) (v : V) :
  NoDup (keys d) -> NoDup (keys (set eqb d k v)).
Proof.
  intros ND. rewrite keys_set.
  destruct (get eqb d k) eqn:E; [exact ND |].
  apply NoDup_app; [exact ND | repeat constructor; intros [] |].
  intros a Ha [<- | []]. apply get_keys in Ha. congruence.
Qed.

Lemma len_set_le (d : list (K * V)) (k : K) (v : V) :
  set eqb d k v <> [].
Proof. destruct d as [| [k0 v0] d]; cbn; [| destruct (eqb k k0)]; discriminate. Qed.

End DictFacts.

(** *** Grouping with [defaultdict(list)] *)

Section Group.
Context {K A W : Type} (eqb : K -> K -> bool) (key : A -> K) (val : A -> W).
Hypothesis eqb_spec : forall a b : K, reflect (a = b) (eqb a b).

Local Abbreviation values_for := (values_for eqb key val).
Local Abbreviation group := (group eqb key val).

Lemma values_for_app (k : K) (l1 l2 : list A) :
  values_for k (l1 ++ l2) = values_for k l1 ++ values_for k l2.
Proof. unfold values_for. now rewrite filter_app, map_app. Qed.

Lemma get_append_to (d : list (K * list W)) (k k' : K) (w : W) :
  get eqb (append_to eqb d k w) k'
  = if eqb k' k then
      Some (match get eqb d k with Some l => l | None => [] end ++ [w])
    else get eqb d k'.
Proof.
  unfold append_to. destruct (get eqb d k); rewrite (get_set eqb eqb_spec); reflexivity.
Qed.

Lemma NoDup_append_to (d : list (K * list W)) (k : K) (w : W) :
  NoDup (keys d) -> NoDup (keys (append_to eqb d k w)).
Proof. unfold append_to. destruct (get eqb d k); now apply NoDup_set. Qed.

Lemma group_snoc (l : list A) (x : A) :
  group (l ++ [x]) = append_to eqb (group l) (key x) (val x).
Proof. unfold group. now rewrite fold_left_app. Qed.

Lemma group_get (l : list A) (k : K) :
  get eqb (group l) k
  = match values_for k l with
    | [] => None
    | _ :: _ => Some (values_for k l)
    end.
Proof.
  induction l as [| x l IH] using rev_ind; [reflexivity |].
  rewrite group_snoc, get_append_to, values_for_app.
  unfold values_for at 2 4. cbn [filter].
  destruct (eqb_spec k (key x)) as [-> | N]; cbn [map].
  - rewrite IH. destruct (values_for (key x) l); reflexivity.
  - rewrite !app_nil_r. exact IH.
Qed.

Lemma group_NoDup (l : list A) : NoDup (keys (group l)).
Proof.
  induction l as [| x l IH] using rev_ind; [constructor |].
  rewrite group_snoc. now apply NoDup_append_to.
Qed.

Lemma group_In (l : list A) (k : K) (ws : list W) :
  In (k, ws) (group l) <-> ws = values_for k l /\ ws <> [].
Proof.
  split.
  - intros H. apply (In_get eqb eqb_spec) in H; [| apply group_NoDup].
    rewrite group_get in H. destruct (values_for k l) eqn:E; [discriminate |].
    injection H as <-. split; [reflexivity | discriminate].
  - intros [-> H]. apply (get_In eqb eqb_spec). rewrite group_get.
    destruct (values_for k l); [congruence | reflexivity].
Qed.

Lemma group_keys (l : list A) (k : K) :
  In k (keys (group l)) <-> In k (map key l).
Proof.
  rewrite (get_keys eqb eqb_spec), group_get. unfold values_for.
  split.
  - intros H. destruct (filter _ l) as [| a f] eqn:E; [cbn in H; congruence |].
    assert (Ha : In a (filter (fun it => eqb k (key it)) l))
      by (rewrite E; now left).
    apply filter_In in Ha as [Ha Hk].
    destruct (eqb_spec k (key a)); [subst; now apply in_map | discriminate].
  - intros H. apply in_map_iff in H as (a & <- & Ha).
    assert (Hf : In a (filter (fun it => eqb (key a) (key it)) l))
      by (apply filter_In; split; [exact Ha | now apply eqb_refl_spec]).
    destruct (filter _ l); [destruct Hf | cbn; discriminate].
Qed.

End Group.

(** ** Comprehensions and scans *)

Lemma map_values_mean {K : Type} (d : list (K * list R)) :
  Forall (fun kv => snd kv <> []) d ->
  map_values_exc mean d = ret (map (fun kv => (fst kv, mean_of (snd kv))) d).
Proof.
  induction 1 as [| [k vs] d Hne _ IH]; [reflexivity |].
  cbn [map_values_exc]. rewrite mean_ret by exact Hne. cbn [bind ret].
  rewrite IH. reflexivity.
Qed.

Lemma min_item_spec {K : Type} (l : list (K * R)) (best : K * R) :
  In (min_item best l) (best :: l)
  /\ Forall (fun kv => snd (min_item best l) <= snd kv) (best :: l).
Proof.
  revert best. induction l as [| kv l IH]; intros best; cbn [min_item].
  - split; [now left | repeat constructor; lra].
  - destruct (Rlt_dec (snd kv) (snd best)) as [L | NL].
    + destruct (IH kv) as [Hin Hall].
      inversion Hall as [| ? ? Hb Hl]; subst.
      split; [now right |].
      constructor; [lra |]. constructor; assumption.
    + destruct (IH best) as [Hin Hall].
      inversion Hall as [| ? ? Hb Hl]; subst.
      split; [destruct Hin; [now left | right; now right] |].
      constructor; [assumption |]. constructor; [lra | assumption].
Qed.

Lemma max_item_spec {K : Type} (l : list (K * R)) (best : K * R) :
  In (max_item best l) (best :: l)
  /\ Forall (fun kv => snd kv <= snd (max_item best l)) (best :: l).
Proof.
  revert best. induction l as [| kv l IH]; intros best; cbn [max_item].
  - split; [now left | repeat constructor; lra].
  - destruct (Rgt_dec (snd kv) (snd best)) as [L | NL].
    + destruct (IH kv) as [Hin Hall].
      inversion Hall as [| ? ? Hb Hl]; subst.
      split; [now right |].
      constructor; [lra |]. constructor; assumption.
    + destruct (IH best) as [Hin Hall].
      inversion Hall as [| ? ? Hb Hl]; subst.
      split; [destruct Hin; [now left | right; now right] |].
      constructor; [assumption |]. constructor; [lra | assumption].
Qed.

Lemma min_key_spec {K : Type} (d : list (K * R)) :
  d <> [] ->
  exists k v, min_key d = ret k /\ In (k, v) d
              /\ Forall (fun kv => v <= snd kv) d.
Proof.
  destruct d as [| kv l]; [congruence | intros _].
  destruct (min_item_spec l kv) as [Hin Hall].
  exists (fst (min_item kv l)), (snd (min_item kv l)).
  rewrite <- surjective_pairing. auto.
Qed.

Lemma max_key_spec {K : Type} (d : list (K * R)) :
  d <> [] ->
  exists k v, max_key d = ret k /\ In (k, v) d
              /\ Forall (fun kv => snd kv <= v) d.
Proof.
  destruct d as [| kv l]; [congruence | intros _].
  destruct (max_item_spec l kv) as [Hin Hall].
  exists (fst (max_item kv l)), (snd (max_item kv l)).
  rewrite <- surjective_pairing. auto.
Qed.

(** ** The investment generator *)

Lemma value_inj (a b : IndustryEnum) : value a = value b -> a = b.
Proof. destruct a, b; cbn; intros H; try reflexivity; discriminate H. Qed.

Lemma industry_eqb_spec (a b : IndustryEnum) : reflect (a = b) (industry_eqb a b).
Proof.
  unfold industry_eqb. destruct (String.eqb_spec (value a) (value b)) as [E | N].
  - constructor. now apply value_inj.
  - constructor. intros ->. now apply N.
Qed.

Lemma fold_exc_app {A B : Type} (f : B -> A -> Exc B) (l1 l2 : list A) (acc : B) :
  fold_exc f (l1 ++ l2) acc = (acc' <- fold_exc f l1 acc ;; fold_exc f l2 acc').
Proof.
  revert acc. induction l1 as [| a l1 IH]; intros acc; cbn [app fold_exc bind];
    [reflexivity |].
  destruct (f acc a) as [e | acc']; cbn [bind]; [reflexivity | apply IH].
Qed.

(** *** The investment generator *)

Lemma investment_efficiency_eval (records : list GenAIAdoptionRecord) :
  investment_efficiency records
  = ret (map efficiency_item
             (filter (fun r => (use_cases_count r >? 0)%Z) records)).
Proof.
  unfold investment_efficiency.
  enough (G : forall acc,
             fold_exc
               (fun acc record =>
                  if (use_cases_count record >? 0)%Z then
                    efficiency <-
                      fdiv (investment_millions record)
                           (IZR (use_cases_count record)) ;;
                    ret (acc ++ [(value (industry record), efficiency,
                                  investment_millions record)])
                  else ret acc)
               records acc
             = ret (acc ++ map efficiency_item
                                (filter (fun r => (use_cases_count r >? 0)%Z)
                                        records)))
    by apply (G []).
  induction records as [| r records IH]; intros acc; cbn [fold_exc filter map].
  - now rewrite app_nil_r.
  - destruct (Z.gtb_spec (use_cases_count r) 0) as [Hpos | Hle].
    + rewrite fdiv_ret by (apply not_0_IZR; lia). cbn [bind ret].
      change (inr ?a) with (ret a). rewrite IH, <- app_assoc. reflexivity.
    + cbn [bind ret]. apply IH.
Qed.

Lemma efficiencies_values (records : list GenAIAdoptionRecord) (i : IndustryEnum) :
  values_for String.eqb (fun it : string * R * R => fst (fst it))
             (fun it => snd (fst it)) (value i)
             (map efficiency_item
                  (filter (fun r => (use_cases_count r >? 0)%Z) records))
  = efficiencies_of records i.
Proof.
  unfold values_for, efficiencies_of.
  induction records as [| r records IH]; [reflexivity |].
  cbn [filter map]. unfold industry_eqb at 1.
  destruct (use_cases_count r >? 0)%Z; cbn [andb filter map fst snd efficiency_item].
  - destruct (String.eqb (value i) (value (industry r))); cbn [map];
      [f_equal |]; exact IH.
  - exact IH.
Qed.

(** The generator, evaluated: when some record has use cases, exactly one
    insight comes out, for an industry of least average cost. *)
Lemma investment_eval (clock : nat -> Z) (records : list GenAIAdoptionRecord)
    (w : World) :
  (exists r, In r records /\ (use_cases_count r > 0)%Z) ->
  exists (i : IndustryEnum) (total : Z),
    _generate_investment_insights clock records w
    = ret ([investment_insight (value i) (avg_efficiency records i)
              (len (efficiencies_of records i)) total
              (clock (tick w)) (clock (S (tick w)))],
           ticked 2 w)
    /\ efficiencies_of records i <> []
    /\ forall j, efficiencies_of records j <> [] ->
                 avg_efficiency records i <= avg_efficiency records j.
Proof.
  intros (r0 & Hin0 & Hpos0).
  unfold _generate_investment_insights.
  destruct records as [| r1 rest] eqn:Erec; [destruct Hin0 |].
  rewrite <- Erec in *. clear Erec r1 rest.
  rewrite investment_efficiency_eval. cbn [lift mbind ret].
  set (ie := map efficiency_item
                 (filter (fun r => (use_cases_count r >? 0)%Z) records)).
  assert (Hr0 : In (efficiency_item r0) ie).
  { apply in_map, filter_In. split; [exact Hin0 |].
    destruct (Z.gtb_spec (use_cases_count r0) 0); [reflexivity | lia]. }
  assert (Hie : ie <> []) by (intros E; rewrite E in Hr0; destruct Hr0).
  destruct ie as [| it ie'] eqn:Eie; [congruence |].
  rewrite <- Eie in *. clear Eie it ie'.
  change (industry_efficiency ie)
    with (group String.eqb (fun it : string * R * R => fst (fst it))
                (fun it => snd (fst it)) ie).
  set (g := group String.eqb (fun it : string * R * R => fst (fst it))
                  (fun it => snd (fst it)) ie).
  assert (Hg : forall k vs, In (k, vs) g <->
            vs = values_for String.eqb (fun it : string * R * R => fst (fst it))
                            (fun it => snd (fst it)) k ie /\ vs <> [])
    by (intros; apply group_In, String.eqb_spec).
  assert (Hne : Forall (fun kv : string * list R => snd kv <> []) g).
  { apply Forall_forall. intros [k vs] H. apply Hg in H. tauto. }
  rewrite (map_values_mean g Hne). cbn [lift mbind ret].
  set (avgs := map (fun kv : string * list R => (fst kv, mean_of (snd kv))) g).
  assert (Hgne : g <> []).
  { assert (In (fst (fst (efficiency_item r0))) (keys g)).
    { apply (group_keys String.eqb _ _ String.eqb_spec).
      exact (in_map (fun it : string * R * R => fst (fst it)) ie _ Hr0). }
    intros E. rewrite E in H. destruct H. }
  assert (Havne : avgs <> []).
  { unfold avgs. destruct g; [congruence | discriminate]. }
  destruct (min_key_spec avgs Havne) as (k & v & Hmin & Hkv & Hall).
  rewrite Hmin. cbn [lift mbind ret].
  assert (NDg : NoDup (keys g)) by apply group_NoDup, String.eqb_spec.
  assert (NDa : NoDup (keys avgs)).
  { unfold avgs, keys. rewrite map_map. cbn [fst]. exact NDg. }
  unfold getitem.
  rewrite (In_get String.eqb String.eqb_spec avgs k v NDa Hkv).
  cbn [lift mbind ret].
  apply in_map_iff in Hkv as ([k' vs] & Ekv & Hkvs). cbn [fst snd] in Ekv.
  injection Ekv as -> <-.
  rewrite (In_get String.eqb String.eqb_spec g k vs NDg Hkvs).
  cbn [lift mbind ret utcnow].
  (* the key is the name of an industry *)
  assert (Hk : exists i, k = value i).
  { assert (Hin : In k (keys g)) by (apply (in_map fst) in Hkvs; exact Hkvs).
    apply (group_keys String.eqb (fun it : string * R * R => fst (fst it))
                      (fun it => snd (fst it)) String.eqb_spec) in Hin.
    unfold ie in Hin. rewrite map_map in Hin.
    apply in_map_iff in Hin as (r & <- & _).
    now exists (industry r). }
  destruct Hk as [i ->].
  pose proof (proj1 (Hg _ _) Hkvs) as [Evs Hvs].
  unfold ie in Evs. rewrite efficiencies_values in Evs. subst vs.
  exists i, (len avgs). split; [reflexivity |]. split; [exact Hvs |].
  intros j Hj.
  rewrite Forall_forall in Hall.
  apply (Hall (value j, avg_efficiency records j)).
  unfold avgs. apply in_map_iff. exists (value j, efficiencies_of records j).
  split; [reflexivity |]. apply Hg. unfold ie.
  rewrite efficiencies_values. tauto.
Qed.

Lemma Rmin_left (a b : R) : a <= b -> Rmin a b = a.
Proof. intros H. unfold Rmin. destruct (Rle_dec a b); [reflexivity | contradiction]. Qed.

Lemma Rmin_right (a b : R) : b <= a -> Rmin a b = b.
Proof. intros H. unfold Rmin. destruct (Rle_dec a b); [lra | reflexivity]. Qed.

(** C9: when some record has [use_cases_count > 0], the generator emits
    exactly one insight, of category [investment_analysis], for an industry
    whose average [investment_millions / use_cases_count] (over its records
    with use cases) is the least, with confidence
    [min(0.85, sample_count / 8)].  For the records (A, 10, 5) and (B, 2, 2)
    industry B is selected with confidence 0.125. *)
Theorem investment_insight_spec :
  (forall (clock : nat -> Z) (records : list GenAIAdoptionRecord) (w : World),
      (exists r, In r records /\ (use_cases_count r > 0)%Z) ->
      exists (ins : InsightObject) (w' : World) (i : IndustryEnum),
        _generate_investment_insights clock records w = ret ([ins], w')
        /\ category ins = "investment_analysis"%string
        /\ efficiencies_of records i <> []
        /\ (forall j, efficiencies_of records j <> [] ->
                      avg_efficiency records i <= avg_efficiency records j)
        /\ confidence ins
           = Rmin 0.85 (IZR (len (efficiencies_of records i)) / 8)
        /\ short_text ins
           = [Lit (value i); Lit " shows highest ROI at $";
              Fixed1 (avg_efficiency records i); Lit "M per use case"]
        /\ data_slice_url ins
           = _generate_data_slice_url
               [("industry", value i); ("metric", "investment")]%string)
  /\ (forall (clock : nat -> Z) (w : World) (A B : IndustryEnum)
             (ya yb : Z) (ra rb : R),
         A <> B ->
         exists (ins : InsightObject) (w' : World),
           _generate_investment_insights clock
             [adoption_record A ya ra 5 10; adoption_record B yb rb 2 2] w
           = ret ([ins], w')
           /\ short_text ins
              = [Lit (value B); Lit " shows highest ROI at $";
                 Fixed1 1; Lit "M per use case"]
           /\ confidence ins = 0.125).
Proof.
  split.
  - intros clock records w H.
    destruct (investment_eval clock records w H) as (i & total & E & Hne & Hmin).
    eexists _, _, i. split; [exact E |]. cbn. repeat split; assumption.
  - intros clock w A B ya yb ra rb HAB.
    set (records := [adoption_record A ya ra 5 10; adoption_record B yb rb 2 2]).
    assert (H : exists r, In r records /\ (use_cases_count r > 0)%Z).
    { exists (adoption_record A ya ra 5 10). split; [now left | cbn; lia]. }
    destruct (investment_eval clock records w H) as (i & total & E & Hne & Hmin).
    assert (Eff : forall j, efficiencies_of records j
                            = (if industry_eqb j A then [10 / 5] else [])
                              ++ (if industry_eqb j B then [2 / 2] else [])).
    { intros j. unfold efficiencies_of, records. cbn.
      destruct (industry_eqb j A), (industry_eqb j B); reflexivity. }
    assert (EA : efficiencies_of records A = [10 / 5]).
    { rewrite Eff. destruct (industry_eqb_spec A A); [| congruence].
      destruct (industry_eqb_spec A B); [congruence | reflexivity]. }
    assert (EB : efficiencies_of records B = [2 / 2]).
    { rewrite Eff. destruct (industry_eqb_spec B B); [| congruence].
      destruct (industry_eqb_spec B A); [congruence | reflexivity]. }
    assert (AvB : avg_efficiency records B = 1).
    { unfold avg_efficiency. rewrite EB. unfold mean_of, sum. cbn. lra. }
    assert (i = B) as ->.
    { destruct (industry_eqb_spec i B) as [-> | NB]; [reflexivity |].
      exfalso. destruct (industry_eqb_spec i A) as [-> | NA].
      - specialize (Hmin B). rewrite AvB in Hmin.
        unfold avg_efficiency in Hmin. rewrite EA, EB in Hmin.
        unfold mean_of, sum in Hmin. cbn in Hmin.
        assert ((0 + 10 / 5) / 1 <= 1) by (apply Hmin; discriminate). lra.
      - apply Hne. rewrite Eff.
        destruct (industry_eqb_spec i A); [contradiction |].
        destruct (industry_eqb_spec i B); [contradiction | reflexivity]. }
    eexists _, _. split; [exact E |]. cbn [short_text confidence investment_insight].
    rewrite AvB, EB. split; [reflexivity |].
    cbn. rewrite Rmin_right; lra.
Qed.

Lemma investment_insight_spec_witness :
  (exists (ins : InsightObject) (w' : World) (i : IndustryEnum),
     _generate_investment_insights tick_clock one_record (InsightsEngine_init 0)
     = ret ([ins], w')
     /\ category ins = "investment_analysis"%string
     /\ efficiencies_of one_record i <> [])
  /\ exists (ins : InsightObject) (w' : World),
       _generate_investment_insights tick_clock
         [adoption_record HEALTHCARE 2023 0.5 5 10;
          adoption_record FINANCE 2023 0.5 2 2]
         (InsightsEngine_init 0)
       = ret ([ins], w')
       /\ short_text ins
          = [Lit (value FINANCE); Lit " shows highest ROI at $";
             Fixed1 1; Lit "M per use case"]
       /\ confidence ins = 0.125.
Proof.
  split.
  - destruct (proj1 investment_insight_spec tick_clock one_record
                (InsightsEngine_init 0))
      as (ins & w' & i & E & Hc & Hne & _).
    + exists (adoption_record HEALTHCARE 2023 0.5 5 10).
      split; [now left | cbn; lia].
    + exists ins, w', i. auto.
  - apply (proj2 investment_insight_spec). discriminate.
Defined.

(** ** The growth generator: grouping and loops *)

(** ** Sorting *)

Lemma insert_sorted_perm (a : Z) (l : list Z) :
  Permutation (a :: l) (insert_sorted a l).
Proof.
  induction l as [| b l IH]; cbn [insert_sorted]; [apply Permutation_refl |].
  destruct (a <=? b)%Z; [apply Permutation_refl |].
  eapply perm_trans; [apply perm_swap |]. now apply perm_skip.
Qed.

Lemma sorted_perm (l : list Z) : Permutation l (sorted l).
Proof.
  induction l as [| a l IH]; cbn [sorted fold_right]; [constructor |].
  eapply perm_trans; [apply perm_skip, IH | apply insert_sorted_perm].
Qed.

Lemma insert_sorted_sorted (a : Z) (l : list Z) :
  StronglySorted Z.le l -> StronglySorted Z.le (insert_sorted a l).
Proof.
  induction 1 as [| b l S IH F]; cbn [insert_sorted].
  - repeat constructor.
  - destruct (Z.leb_spec a b) as [L | G].
    + constructor; [now constructor |].
      constructor; [exact L |].
      eapply Forall_impl; [| exact F]. intros c Hc. cbn in Hc. lia.
    + constructor; [exact IH |].
      eapply Permutation_Forall; [apply insert_sorted_perm |].
      constructor; [lia | exact F].
Qed.

Lemma sorted_sorted (l : list Z) : StronglySorted Z.le (sorted l).
Proof.
  induction l as [| a l IH]; cbn [sorted fold_right]; [constructor |].
  now apply insert_sorted_sorted.
Qed.

Lemma sorted_of_perm (l1 l2 : list Z) :
  Permutation l1 l2 -> sorted l1 = sorted l2.
Proof.
  intros P. apply (sorted_perm_eq Z.le); [intros; lia | apply sorted_sorted ..|].
  eapply perm_trans; [apply Permutation_sym, sorted_perm |].
  eapply perm_trans; [exact P | apply sorted_perm].
Qed.

Lemma consecutive_In {A : Type} (l : list A) (a b : A) :
  In (a, b) (consecutive l) -> In a l /\ In b l.
Proof.
  induction l as [| x l IH]; [cbn; tauto |].
  destruct l as [| y l]; [cbn; tauto |].
  change (consecutive (x :: y :: l)) with ((x, y) :: consecutive (y :: l)).
  intros [E | H].
  - injection E as -> ->. split; [now left | right; now left].
  - destruct (IH H). split; right; assumption.
Qed.

(** ** The growth generator *)

Lemma get_app {K V : Type} (eqb : K -> K -> bool) (d1 d2 : list (K * V)) (k : K) :
  get eqb (d1 ++ d2) k
  = match get eqb d1 k with
    | Some v => Some v
    | None => get eqb d2 k
    end.
Proof.
  induction d1 as [| [k0 v0] d1 IH]; cbn [app get]; [reflexivity |].
  destruct (eqb k k0); [reflexivity | exact IH].
Qed.

Section Growth.
Variables (years : option (list Z)) (industries : option (list string)).

Lemma industry_year_data_snoc (l : list GenAIAdoptionRecord)
    (r : GenAIAdoptionRecord) :
  industry_year_data (l ++ [r]) years industries
  = growth_step years industries (industry_year_data l years industries) r.
Proof. unfold industry_year_data. now rewrite fold_left_app. Qed.

Lemma selected_snoc (l : list GenAIAdoptionRecord) (r : GenAIAdoptionRecord) :
  selected (l ++ [r]) years industries
  = selected l years industries
    ++ (if excluded_industry industries (industry r) then []
        else if excluded_year years (year r) then [] else [r]).
Proof.
  unfold selected. rewrite filter_app. cbn [filter].
  destruct (excluded_industry industries (industry r)); [reflexivity |].
  destruct (excluded_year years (year r)); reflexivity.
Qed.

Lemma iyd_get (records : list GenAIAdoptionRecord) (k : string) :
  get String.eqb (industry_year_data records years industries) k
  = match filter (fun r => String.eqb k (value (industry r)))
                 (selected records years industries) with
    | [] => None
    | recs => Some (year_group recs)
    end.
Proof.
  induction records as [| r records IH] using rev_ind; [reflexivity |].
  rewrite industry_year_data_snoc, selected_snoc, filter_app.
  unfold growth_step.
  destruct (excluded_industry industries (industry r));
    [cbn [filter]; rewrite app_nil_r; exact IH |].
  destruct (excluded_year years (year r));
    [cbn [filter]; rewrite app_nil_r; exact IH |].
  rewrite (get_set String.eqb String.eqb_spec). cbn [filter].
  destruct (String.eqb_spec k (value (industry r))) as [-> | N].
  - rewrite IH.
    destruct (filter _ (selected records years industries)) as [| r0 recs];
      [reflexivity |].
    cbn [app]. change (r0 :: recs ++ [r]) with ((r0 :: recs) ++ [r]).
    unfold year_group. now rewrite group_snoc.
  - rewrite app_nil_r. exact IH.
Qed.

Lemma iyd_NoDup (records : list GenAIAdoptionRecord) :
  NoDup (keys (industry_year_data records years industries)).
Proof.
  induction records as [| r records IH] using rev_ind; [constructor |].
  rewrite industry_year_data_snoc. unfold growth_step.
  destruct (excluded_industry _ _); [exact IH |].
  destruct (excluded_year _ _); [exact IH |].
  now apply NoDup_set; [apply String.eqb_spec |].
Qed.

Lemma filter_by_name (i : IndustryEnum) (recs : list GenAIAdoptionRecord) :
  filter (fun r => String.eqb (value i) (value (industry r))) recs
  = of_industry i recs.
Proof. reflexivity. Qed.

(** Every entry of [industry_year_data] is an industry with its selected
    records grouped by year. *)
Lemma iyd_In (records : list GenAIAdoptionRecord) (k : string)
    (yd : list (Z * list R)) :
  In (k, yd) (industry_year_data records years industries) ->
  exists i, k = value i
            /\ of_industry i (selected records years industries) <> []
            /\ yd = year_group (of_industry i (selected records years industries)).
Proof.
  intros H. apply (In_get String.eqb String.eqb_spec) in H; [| apply iyd_NoDup].
  rewrite iyd_get in H.
  destruct (filter _ _) as [| r recs] eqn:E; [discriminate |].
  assert (Hr : In r (filter (fun r => String.eqb k (value (industry r)))
                            (selected records years industries)))
    by (rewrite E; now left).
  apply filter_In in Hr as [_ Hk].
  destruct (String.eqb_spec k (value (industry r))) as [-> | ]; [| discriminate].
  exists (industry r). rewrite <- filter_by_name, E.
  split; [reflexivity |]. split; [discriminate |]. now injection H.
Qed.

End Growth.

(** *** One industry's years *)

Section YearGroup.
Variable recs : list GenAIAdoptionRecord.

Lemma year_group_keys (y : Z) :
  In y (keys (year_group recs)) <-> In y (map year recs).
Proof. apply (group_keys Z.eqb year adoption_rate Z.eqb_spec). Qed.

Lemma year_group_perm :
  Permutation (keys (year_group recs)) (distinct_years recs).
Proof.
  apply NoDup_Permutation.
  - apply (group_NoDup Z.eqb year adoption_rate Z.eqb_spec).
  - apply NoDup_nodup.
  - intros y. rewrite year_group_keys. unfold distinct_years.
    now rewrite nodup_In.
Qed.

Lemma year_group_sorted :
  sorted (keys (year_group recs)) = sorted (distinct_years recs).
Proof. apply sorted_of_perm, year_group_perm. Qed.

Lemma year_group_len : len (year_group recs) = len (distinct_years recs).
Proof.
  unfold len. f_equal. rewrite <- (Permutation_length year_group_perm).
  unfold keys. now rewrite length_map.
Qed.

Lemma year_group_rates (y : Z) :
  rates_of_year (year_group recs) y = values_for Z.eqb year adoption_rate y recs.
Proof.
  unfold rates_of_year, year_group.
  rewrite (group_get Z.eqb year adoption_rate Z.eqb_spec).
  destruct (values_for Z.eqb year adoption_rate y recs); reflexivity.
Qed.

Lemma year_group_rates_nonempty (y : Z) :
  In y (map year recs) -> rates_of_year (year_group recs) y <> [].
Proof.
  intros H. apply year_group_keys in H.
  apply (get_keys Z.eqb Z.eqb_spec) in H. unfold rates_of_year.
  destruct (get Z.eqb (year_group recs) y) as [l |] eqn:E; [| congruence].
  apply (get_In Z.eqb Z.eqb_spec) in E.
  apply (group_In Z.eqb year adoption_rate Z.eqb_spec) in E. tauto.
Qed.

Lemma year_data_growth_spec :
  year_data_growth (year_group recs) = yearly_growth recs.
Proof.
  unfold year_data_growth, yearly_growth. rewrite year_group_sorted.
  apply flat_map_ext. intros [a b]. unfold growth_between, year_mean.
  cbn [fst snd]. now rewrite !year_group_rates.
Qed.

Lemma year_data_avg_spec : year_data_avg (year_group recs) = avg_growth recs.
Proof. unfold year_data_avg, avg_growth. now rewrite year_data_growth_spec. Qed.

(** The inner loop never raises: no mean of an empty list, no division by
    zero. *)
Lemma growth_rates_of_eval :
  growth_rates_of (year_group recs) = ret (year_data_growth (year_group recs)).
Proof.
  unfold growth_rates_of, year_data_growth.
  set (yd := year_group recs).
  assert (Hin : forall a b, In (a, b) (consecutive (sorted (keys yd))) ->
                            In a (map year recs) /\ In b (map year recs)).
  { intros a b H. apply consecutive_In in H as [Ha Hb].
    split; apply year_group_keys;
      (eapply Permutation_in; [apply Permutation_sym, sorted_perm |]);
      assumption. }
  revert Hin. generalize (consecutive (sorted (keys yd))) as ps.
  intros ps Hin.
  enough (G : forall acc,
             fold_exc
               (fun growth_rates pair =>
                  let prev_year := fst pair in
                  let curr_year := snd pair in
                  prev_avg <- mean (rates_of_year yd prev_year) ;;
                  curr_avg <- mean (rates_of_year yd curr_year) ;;
                  if Rgt_dec prev_avg 0 then
                    growth_rate <- fdiv (curr_avg - prev_avg) prev_avg ;;
                    ret (growth_rates ++ [growth_rate])
                  else ret growth_rates)
               ps acc
             = ret (acc
                    ++ flat_map
                         (fun pair =>
                            let prev_avg := mean_of (rates_of_year yd (fst pair)) in
                            let curr_avg := mean_of (rates_of_year yd (snd pair)) in
                            if Rgt_dec prev_avg 0
                            then [(curr_avg - prev_avg) / prev_avg] else [])
                         ps))
    by apply (G []).
  induction ps as [| [a b] ps IH]; intros acc; cbn [fold_exc flat_map].
  - now rewrite app_nil_r.
  - destruct (Hin a b (or_introl eq_refl)) as [Ha Hb].
    cbv zeta. cbn [fst snd].
    rewrite (mean_ret (rates_of_year yd a))
      by now apply year_group_rates_nonempty.
    rewrite (mean_ret (rates_of_year yd b))
      by now apply year_group_rates_nonempty.
    cbn [bind ret].
    destruct (Rgt_dec (mean_of (rates_of_year yd a)) 0) as [G | NG].
    + rewrite fdiv_ret by lra. cbn [bind ret]. change (inr ?x) with (ret x).
      rewrite IH by (intros; apply Hin; now right).
      now rewrite <- app_assoc.
    + cbn [bind ret app]. apply IH. intros; apply Hin; now right.
Qed.

End YearGroup.

(** *** All industries *)

Lemma industry_growth_rates_eval (es : list (string * list (Z * list R))) :
  (forall k yd, In (k, yd) es -> exists recs, yd = year_group recs) ->
  industry_growth_rates es = ret (growth_rates_pure es).
Proof.
  intros Hes. unfold industry_growth_rates, growth_rates_pure.
  generalize (@nil (string * R)) as acc. revert Hes.
  induction es as [| [k yd] es IH]; intros Hes acc; cbn [fold_exc fold_left];
    [reflexivity |].
  destruct (Hes k yd (or_introl eq_refl)) as [recs ->].
  cbv zeta. cbn [fst snd].
  assert (Hstep :
    (if (len (sorted (keys (year_group recs))) <? 2)%Z then ret acc
     else
       growth_rates <- growth_rates_of (year_group recs) ;;
       match growth_rates with
       | [] => ret acc
       | _ :: _ =>
           avg_growth <- mean growth_rates ;;
           ret (set String.eqb acc k avg_growth)
       end)
    = ret (match year_data_avg (year_group recs) with
           | Some avg_growth => set String.eqb acc k avg_growth
           | None => acc
           end)).
  { unfold year_data_avg.
    destruct (Z.ltb_spec (len (sorted (keys (year_group recs)))) 2) as [L | G].
    - assert (E : year_data_growth (year_group recs) = []).
      { unfold year_data_growth.
        destruct (sorted (keys (year_group recs))) as [| a [| b l]];
          [reflexivity | reflexivity |].
        exfalso. unfold len in L. cbn [List.length] in L. lia. }
      now rewrite E.
    - rewrite growth_rates_of_eval. cbn [bind ret].
      destruct (year_data_growth (year_group recs)) as [| g gs] eqn:E;
        [reflexivity |].
      rewrite mean_ret by discriminate. reflexivity. }
  rewrite Hstep. cbn [bind ret].
  apply IH. intros k' yd' H. apply (Hes k' yd'). now right.
Qed.

Lemma growth_rates_pure_snoc (es : list (string * list (Z * list R)))
    (e : string * list (Z * list R)) :
  growth_rates_pure (es ++ [e])
  = match year_data_avg (snd e) with
    | Some g => set String.eqb (growth_rates_pure es) (fst e) g
    | None => growth_rates_pure es
    end.
Proof. unfold growth_rates_pure. now rewrite fold_left_app. Qed.

Lemma growth_rates_pure_get (es : list (string * list (Z * list R))) (k : string) :
  NoDup (keys es) ->
  get String.eqb (growth_rates_pure es) k
  = match get String.eqb es k with
    | Some yd => year_data_avg yd
    | None => None
    end.
Proof.
  induction es as [| [k0 yd0] es IH] using rev_ind; intros ND; [reflexivity |].
  unfold keys in ND. rewrite map_app in ND. cbn [map fst] in ND.
  assert (ND' : NoDup (keys es)) by (eapply NoDup_app_remove_r; exact ND).
  assert (Hfresh : get String.eqb es k0 = None).
  { destruct (get String.eqb es k0) eqn:E; [| reflexivity].
    exfalso. apply NoDup_remove_2 in ND. rewrite app_nil_r in ND.
    apply ND. apply (get_keys String.eqb String.eqb_spec). congruence. }
  rewrite growth_rates_pure_snoc, get_app. cbn [fst snd get].
  specialize (IH ND').
  destruct (String.eqb_spec k k0) as [-> | N].
  - rewrite Hfresh. destruct (year_data_avg yd0) as [g |].
    + rewrite (get_set String.eqb String.eqb_spec), String.eqb_refl. reflexivity.
    + rewrite IH, Hfresh. reflexivity.
  - destruct (year_data_avg yd0) as [g |].
    + rewrite (get_set String.eqb String.eqb_spec).
      destruct (String.eqb_spec k k0); [contradiction |].
      rewrite IH. destruct (get String.eqb es k); reflexivity.
    + rewrite IH. destruct (get String.eqb es k); reflexivity.
Qed.

Lemma growth_rates_pure_NoDup (es : list (string * list (Z * list R))) :
  NoDup (keys (growth_rates_pure es)).
Proof.
  induction es as [| e es IH] using rev_ind; [constructor |].
  rewrite growth_rates_pure_snoc.
  destruct (year_data_avg (snd e)); [| exact IH].
  now apply NoDup_set; [apply String.eqb_spec |].
Qed.

(** ** The growth generator: evaluation *)

Section GrowthEval.
Variables (clock : nat -> Z) (records : list GenAIAdoptionRecord).
Variables (years : option (list Z)) (industries : option (list string)).

Local Abbreviation recs :=
  (fun i : IndustryEnum => of_industry i (selected records years industries)).

Local Abbreviation iyd := (industry_year_data records years industries).

Lemma iyd_entries :
  forall k yd, In (k, yd) iyd -> exists rs, yd = year_group rs.
Proof.
  intros k yd H. apply iyd_In in H as (i & _ & _ & ->). eauto.
Qed.

Lemma iyd_year_data (i : IndustryEnum) :
  match get String.eqb iyd (value i) with
  | Some yd => yd
  | None => []
  end = year_group (recs i).
Proof.
  rewrite iyd_get, filter_by_name.
  destruct (of_industry i (selected records years industries)); reflexivity.
Qed.

Lemma rates_get (i : IndustryEnum) :
  get String.eqb (growth_rates_pure iyd) (value i) = avg_growth (recs i).
Proof.
  rewrite growth_rates_pure_get by apply iyd_NoDup.
  rewrite iyd_get, filter_by_name.
  destruct (of_industry i (selected records years industries)) eqn:E;
    [reflexivity |].
  rewrite <- E. apply year_data_avg_spec.
Qed.

Lemma rates_industry (k : string) (v : R) :
  In (k, v) (growth_rates_pure iyd) -> exists i, k = value i.
Proof.
  intros H.
  apply (In_get String.eqb String.eqb_spec) in H;
    [| apply growth_rates_pure_NoDup].
  rewrite growth_rates_pure_get in H by apply iyd_NoDup.
  destruct (get String.eqb iyd k) as [yd |] eqn:E; [| discriminate].
  apply (get_In String.eqb String.eqb_spec) in E.
  apply iyd_In in E as (i & -> & _). eauto.
Qed.

(** The growth generator, evaluated. *)
Lemma growth_eval (w : World) :
  ((forall i, avg_growth (recs i) = None)
   /\ _generate_growth_insights clock records years industries w = ret ([], w))
  \/ exists (i : IndustryEnum) (g : R),
       avg_growth (recs i) = Some g
       /\ (forall j g', avg_growth (recs j) = Some g' -> g' <= g)
       /\ _generate_growth_insights clock records years industries w
          = ret (if Rgt_dec g 0.1 then
                   ([growth_insight (value i) g (len (distinct_years (recs i)))
                       (clock (tick w)) (clock (S (tick w)))],
                    ticked 2 w)
                 else ([], w)).
Proof.
  assert (Hrec : records = [] \/ records <> [])
    by (destruct records; [now left | right; discriminate]).
  destruct Hrec as [Hnil | Hcons].
  { left. rewrite Hnil. split; [| reflexivity]. intros i. reflexivity. }
  assert (Hbody :
    _generate_growth_insights clock records years industries
    = (rates <~ lift (industry_growth_rates iyd) ;;
       match rates with
       | [] => mret []
       | _ :: _ =>
           fastest_industry <~ lift (max_key rates) ;;
           fastest_rate <~ lift (getitem String.eqb rates fastest_industry) ;;
           if Rgt_dec fastest_rate 0.1 then
             t_id <~ utcnow clock ;;
             t_at <~ utcnow clock ;;
             mret
               [growth_insight fastest_industry fastest_rate
                  (len (match get String.eqb iyd fastest_industry with
                        | Some yd => yd
                        | None => []
                        end))
                  t_id t_at]
           else mret []
       end))
    by (unfold _generate_growth_insights; destruct records;
        [congruence | reflexivity]).
  rewrite Hbody. clear Hbody.
  rewrite (industry_growth_rates_eval iyd iyd_entries).
  cbn [lift mbind ret].
  pose proof rates_get as Hget. pose proof rates_industry as Hind.
  pose proof (growth_rates_pure_NoDup iyd) as ND.
  destruct (growth_rates_pure iyd) as [| e rates'] eqn:Er.
  { left. split; [| reflexivity]. intros i. now rewrite <- Hget. }
  rewrite <- Er in *. right.
  assert (Hne : growth_rates_pure iyd <> []) by (rewrite Er; discriminate).
  clear Er e rates'.
  destruct (max_key_spec _ Hne) as (k & v & Hmax & Hkv & Hall).
  destruct (Hind k v Hkv) as [i ->].
  pose proof (In_get String.eqb String.eqb_spec _ _ _ ND Hkv) as Hk.
  exists i, v. split; [now rewrite <- Hget |]. split.
  - intros j g' Hj. rewrite <- Hget in Hj.
    apply (get_In String.eqb String.eqb_spec) in Hj.
    rewrite Forall_forall in Hall. exact (Hall _ Hj).
  - destruct (growth_rates_pure iyd) as [| e rates'] eqn:Er; [congruence |].
    cbv iota. rewrite Hmax. cbn [lift mbind ret].
    unfold getitem. rewrite Hk. cbn [lift mbind ret].
    destruct (Rgt_dec v 0.1); [| reflexivity].
    rewrite iyd_year_data, year_group_len. reflexivity.
Qed.

End GrowthEval.

(** ** The growth generator: statements *)




(** C10: the growth generator never raises, so it never divides by zero:
    the inner loop returns exactly the growth rates of the neighbouring
    years whose earlier mean is positive, and a pair whose earlier mean is 0
    gives none.  An industry whose every pair has an earlier mean of 0 gets
    no entry in [industry_growth_rates] and is not the industry of an
    emitted insight. *)
Theorem growth_skips_zero_mean :
  forall (clock : nat -> Z) (records : list GenAIAdoptionRecord)
         (years : option (list Z)) (industries : option (list string))
         (w : World),
    let recs := fun i => of_industry i (selected records years industries) in
    let pairs := fun i => consecutive (sorted (distinct_years (recs i))) in
    exists (out : list InsightObject) (w' : World)
           (rates : list (string * R)),
      _generate_growth_insights clock records years industries w
      = ret (out, w')
      /\ industry_growth_rates (industry_year_data records years industries)
         = ret rates
      /\ forall i : IndustryEnum,
           growth_rates_of (year_group (recs i))
           = ret (flat_map (growth_between (recs i)) (pairs i))
           /\ (forall p, In p (pairs i) -> year_mean (recs i) (fst p) = 0 ->
                         growth_between (recs i) p = [])
           /\ ((forall p, In p (pairs i) -> year_mean (recs i) (fst p) = 0) ->
               get String.eqb rates (value i) = None
               /\ forall ins, In ins out ->
                              ~ In (Lit (value i)) (short_text ins)).
Proof.
  intros clock records years industries w recs pairs.
  assert (Hrates :
    industry_growth_rates (industry_year_data records years industries)
    = ret (growth_rates_pure (industry_year_data records years industries))).
  { apply industry_growth_rates_eval. intros k yd H.
    apply iyd_In in H as (i & _ & _ & ->). eauto. }
  assert (Hzero : forall i,
    (forall p, In p (pairs i) -> year_mean (recs i) (fst p) = 0) ->
    avg_growth (recs i) = None).
  { intros i Hz. unfold avg_growth, yearly_growth. fold (pairs i).
    assert (E : flat_map (growth_between (recs i)) (pairs i) = []).
    { induction (pairs i) as [| p ps IH]; [reflexivity |].
      cbn [flat_map]. rewrite IH by (intros; apply Hz; now right).
      unfold growth_between. rewrite (Hz p) by now left.
      destruct (Rgt_dec 0 0); [lra | reflexivity]. }
    now rewrite E. }
  assert (Hper : forall i,
    growth_rates_of (year_group (recs i))
    = ret (flat_map (growth_between (recs i)) (pairs i))
    /\ (forall p, In p (pairs i) -> year_mean (recs i) (fst p) = 0 ->
                  growth_between (recs i) p = [])).
  { intros i. split.
    - rewrite growth_rates_of_eval, year_data_growth_spec. reflexivity.
    - intros p _ Hp. unfold growth_between. rewrite Hp.
      destruct (Rgt_dec 0 0); [lra | reflexivity]. }
  destruct (growth_eval clock records years industries w)
    as [[Hnone E] | (i0 & g & Hg & Hmax & E)].
  - exists [], w, (growth_rates_pure (industry_year_data records years industries)).
    split; [exact E |]. split; [exact Hrates |].
    intros i. destruct (Hper i) as [H1 H2]. split; [exact H1 |].
    split; [exact H2 |]. intros Hz. split.
    + rewrite rates_get. apply Hnone.
    + intros ins [].
  - assert (Hsel : forall i,
      (forall p, In p (pairs i) -> year_mean (recs i) (fst p) = 0) -> i <> i0).
    { intros i Hz ->. pose proof (Hzero i0 Hz) as Hn. unfold recs in Hn.
      rewrite Hn in Hg. discriminate. }
    destruct (Rgt_dec g 0.1) as [G | NG].
    + eexists _, _, (growth_rates_pure (industry_year_data records years industries)).
      split; [exact E |]. split; [exact Hrates |].
      intros i. destruct (Hper i) as [H1 H2]. split; [exact H1 |].
      split; [exact H2 |]. intros Hz. split.
      * rewrite rates_get. now apply Hzero.
      * intros ins [<- | []]. cbn [short_text growth_insight In].
        specialize (Hsel i Hz).
        intros [Hv | [Hv | [Hv | [Hv | []]]]]; try discriminate.
        -- injection Hv as Hv. apply value_inj in Hv. congruence.
        -- destruct i; discriminate.
        -- destruct i; discriminate.
    + exists [], w, (growth_rates_pure (industry_year_data records years industries)).
      split; [exact E |]. split; [exact Hrates |].
      intros i. destruct (Hper i) as [H1 H2]. split; [exact H1 |].
      split; [exact H2 |]. intros Hz. split.
      * rewrite rates_get. now apply Hzero.
      * intros ins [].
Qed.


Lemma growth_skips_zero_mean_witness :
  exists (out : list InsightObject) (w' : World) (rates : list (string * R)),
    _generate_growth_insights tick_clock zero_then_half None None
      (InsightsEngine_init 0)
    = ret (out, w')
    /\ industry_growth_rates (industry_year_data zero_then_half None None)
       = ret rates
    /\ get String.eqb rates "Healthcare"%string = None
    /\ forall ins, In ins out -> ~ In (Lit "Healthcare") (short_text ins).
Proof.
  destruct (growth_skips_zero_mean tick_clock zero_then_half None None
              (InsightsEngine_init 0))
    as (out & w' & rates & E & Er & H).
  exists out, w', rates. split; [exact E |]. split; [exact Er |].
  destruct (H HEALTHCARE) as (_ & _ & Hz). apply Hz.
  intros p Hp. cbn in Hp. destruct Hp as [<- | []].
  unfold year_mean, values_for, mean_of, sum, len. cbn. lra.
Defined.

(** ** The cache round trip *)

(** ** The cache *)

Lemma mbind_inv {A B : Type} (m : M A) (f : A -> M B) (w w2 : World) (b : B) :
  mbind m f w = ret (b, w2) ->
  exists a w1, m w = ret (a, w1) /\ f a w1 = ret (b, w2).
Proof.
  unfold mbind. destruct (m w) as [e | [a w1]]; [discriminate |]. eauto.
Qed.

Lemma keeps_mret {A : Type} (a : A) : keeps_cache (mret a).
Proof. intros w w' a' [= _ <-]. reflexivity. Qed.

Lemma keeps_lift {A : Type} (e : Exc A) : keeps_cache (lift e).
Proof. intros w w' a. unfold lift. destruct e; [discriminate |]. now intros [= _ <-]. Qed.

Lemma keeps_utcnow (clock : nat -> Z) : keeps_cache (utcnow clock).
Proof. intros w w' a [= _ <-]. reflexivity. Qed.

Lemma keeps_mbind {A B : Type} (m : M A) (f : A -> M B) :
  keeps_cache m -> (forall a, keeps_cache (f a)) -> keeps_cache (mbind m f).
Proof.
  intros Hm Hf w w2 b H. apply mbind_inv in H as (a & w1 & H1 & H2).
  rewrite (Hf a _ _ _ H2). exact (Hm _ _ _ H1).
Qed.

Ltac keeps :=
  repeat first
    [ apply keeps_mret
    | apply keeps_lift
    | apply keeps_utcnow
    | apply keeps_mbind; [| intros ?]
    | match goal with
      | |- keeps_cache (match ?x with _ => _ end) => destruct x
      | |- keeps_cache (let '(_, _) := ?x in _) => destruct x
      end ].

Lemma keeps_adoption (clock : nat -> Z) (records : list GenAIAdoptionRecord) :
  keeps_cache (_generate_adoption_insights clock records).
Proof. unfold _generate_adoption_insights. keeps. Qed.

Lemma keeps_correlation (clock : nat -> Z)
    (genai_records : list GenAIAdoptionRecord)
    (aws_records : list AWSUsageRecord) :
  keeps_cache (_generate_correlation_insights clock genai_records aws_records).
Proof. unfold _generate_correlation_insights. keeps. Qed.

Lemma keeps_growth (clock : nat -> Z) (records : list GenAIAdoptionRecord)
    (years : option (list Z)) (industries : option (list string)) :
  keeps_cache (_generate_growth_insights clock records years industries).
Proof. unfold _generate_growth_insights. keeps. Qed.

Lemma keeps_investment (clock : nat -> Z) (records : list GenAIAdoptionRecord) :
  keeps_cache (_generate_investment_insights clock records).
Proof. unfold _generate_investment_insights. keeps. Qed.

Section RoundTrip.
Variable clock : nat -> Z.
Variables (years : option (list Z)) (industries : option (list string)).

Local Abbreviation key := (_generate_key years industries).

Lemma generate_insights_unfold (genai : list GenAIAdoptionRecord)
    (aws : list AWSUsageRecord) :
  generate_insights clock genai aws years industries
  = (cached_insights <~ cache_get clock years industries ;;
     if truthy cached_insights then
       mret (match cached_insights with Some l => l | None => [] end)
     else compute_and_store clock genai aws years industries).
Proof. reflexivity. Qed.

(** [InsightCache.get]: nothing stored. *)
Lemma cache_get_absent (w : World) :
  get String.eqb (cache (engine_cache w)) key = None ->
  cache_get clock years industries w = ret (None, w).
Proof. intros H. unfold cache_get. now rewrite H. Qed.

(** [InsightCache.get]: an entry younger than the TTL is returned. *)
Lemma cache_get_fresh (w : World) (insights : list InsightObject) (ts : Z) :
  get String.eqb (cache (engine_cache w)) key = Some (insights, ts) ->
  (clock (tick w) - ts < timedelta_minutes (ttl_minutes (engine_cache w)))%Z ->
  cache_get clock years industries w = ret (Some insights, ticked 1 w).
Proof.
  intros H Hf. unfold cache_get. rewrite H. cbn [mbind utcnow ret].
  cbn [tick engine_cache].
  destruct (Z.ltb_spec (clock (tick w) - ts)
                       (timedelta_minutes (ttl_minutes (engine_cache w))));
    [reflexivity | lia].
Qed.

(** [InsightCache.get]: an entry as old as the TTL or older is deleted and
    not returned. *)
Lemma cache_get_stale (w : World) (insights : list InsightObject) (ts : Z) :
  get String.eqb (cache (engine_cache w)) key = Some (insights, ts) ->
  (timedelta_minutes (ttl_minutes (engine_cache w)) <= clock (tick w) - ts)%Z ->
  cache_get clock years industries w
  = ret (None,
         with_cache (ticked 1 w) (del String.eqb (cache (engine_cache w)) key)).
Proof.
  intros H Hs. unfold cache_get. rewrite H. cbn [mbind utcnow ret].
  cbn [tick engine_cache].
  destruct (Z.ltb_spec (clock (tick w) - ts)
                       (timedelta_minutes (ttl_minutes (engine_cache w))));
    [lia | reflexivity].
Qed.

Lemma get_del_same {V : Type} (d : list (string * V)) (k : string) :
  NoDup (keys d) -> get String.eqb (del String.eqb d k) k = None.
Proof.
  induction d as [| [k0 v0] d IH]; intros ND; cbn [del get]; [reflexivity |].
  inversion ND as [| ? ? Hnin ND']; subst.
  destruct (String.eqb_spec k k0) as [-> | N].
  - destruct (get String.eqb d k0) eqn:E; [| reflexivity].
    exfalso. apply Hnin. apply (get_keys String.eqb String.eqb_spec). congruence.
  - cbn [get]. destruct (String.eqb_spec k k0); [contradiction | now apply IH].
Qed.

(** The miss path stores what it returns, stamped with the last clock
    reading, and otherwise leaves the cache alone. *)
Lemma compute_and_store_result (genai : list GenAIAdoptionRecord)
    (aws : list AWSUsageRecord) (w w' : World) (r : list InsightObject) :
  compute_and_store clock genai aws years industries w = ret (r, w') ->
  exists t : nat,
    tick w' = S t
    /\ engine_cache w'
       = {| cache := set String.eqb (cache (engine_cache w)) key (r, clock t);
            ttl_minutes := ttl_minutes (engine_cache w) |}.
Proof.
  unfold compute_and_store. intros H.
  apply mbind_inv in H as (i1 & w1 & H1 & H).
  apply mbind_inv in H as (i2 & w2 & H2 & H).
  apply mbind_inv in H as (i3 & w3 & H3 & H).
  apply mbind_inv in H as (i4 & w4 & H4 & H).
  apply keeps_adoption in H1. apply keeps_correlation in H2.
  apply keeps_growth in H3. apply keeps_investment in H4.
  cbv zeta in H. unfold cache_set in H. cbn [mbind utcnow ret mret] in H.
  injection H as <- <-. exists (tick w4). cbn [tick engine_cache].
  split; [reflexivity |]. congruence.
Qed.

(** X4: a call whose result is not empty is answered from the cache for as long
    as the entry is younger than the TTL, whatever the loader returns by
    then: same insights, same [computed_at]. *)
Lemma generate_insights_round_trip (genai genai' : list GenAIAdoptionRecord)
    (aws aws' : list AWSUsageRecord) (w0 w1 : World) (r1 : list InsightObject) :
  generate_insights clock genai aws years industries w0 = ret (r1, w1) ->
  r1 <> [] ->
  exists ts : Z,
    get String.eqb (cache (engine_cache w1)) key = Some (r1, ts)
    /\ ((clock (tick w1) - ts
         < timedelta_minutes (ttl_minutes (engine_cache w1)))%Z ->
        generate_insights clock genai' aws' years industries w1
        = ret (r1, ticked 1 w1)).
Proof.
  intros H Hne. rewrite generate_insights_unfold in H.
  apply mbind_inv in H as (c & w & Hc & H).
  assert (Hstored : exists ts,
            get String.eqb (cache (engine_cache w1)) key = Some (r1, ts)).
  { destruct (truthy c) eqn:Et.
    - destruct c as [[| i l] |]; try discriminate. injection H as <- <-.
      unfold cache_get in Hc.
      destruct (get String.eqb (cache (engine_cache w0)) key)
        as [[ins ts] |] eqn:E; [| discriminate].
      cbn [mbind utcnow ret tick engine_cache] in Hc.
      destruct (_ <? _)%Z; [| discriminate].
      injection Hc as <- <-. exists ts. exact E.
    - apply compute_and_store_result in H as (t & _ & ->).
      exists (clock t). cbn [cache].
      now rewrite (get_set String.eqb String.eqb_spec), String.eqb_refl. }
  destruct Hstored as [ts Hts]. exists ts. split; [exact Hts |].
  intros Hfresh. rewrite generate_insights_unfold.
  unfold mbind at 1. rewrite (cache_get_fresh w1 r1 ts Hts Hfresh).
  cbn [ret]. destruct r1; [congruence | reflexivity].
Qed.

(** An entry as old as the TTL is not served: the call takes the miss path
    on a cache from which the entry is gone. *)
Lemma generate_insights_stale (genai : list GenAIAdoptionRecord)
    (aws : list AWSUsageRecord) (w : World) (insights : list InsightObject)
    (ts : Z) :
  get String.eqb (cache (engine_cache w)) key = Some (insights, ts) ->
  (timedelta_minutes (ttl_minutes (engine_cache w)) <= clock (tick w) - ts)%Z ->
  generate_insights clock genai aws years industries w
  = compute_and_store clock genai aws years industries
      (with_cache (ticked 1 w) (del String.eqb (cache (engine_cache w)) key)).
Proof.
  intros H Hs. rewrite generate_insights_unfold. unfold mbind at 1.
  rewrite (cache_get_stale w insights ts H Hs). reflexivity.
Qed.

End RoundTrip.

(** *** The round trip of an empty result *)

Lemma adoption_one_low (clock : nat -> Z) (w : World) :
  _generate_adoption_insights clock one_record w = ret ([], w).
Proof.
  unfold _generate_adoption_insights, one_record.
  cbn [fold_left append_to get set industry GenAI_Record genai_industry
       adoption_record adoption_rate value].
  cbn [map_values_exc mean bind ret lift mbind].
  cbn [filter snd map fst].
  destruct (Rgt_dec _ 0.6) as [G | NG]; [| reflexivity].
  exfalso. unfold sum, len in G. cbn in G. lra.
Qed.

Lemma growth_one (clock : nat -> Z) (w : World) :
  _generate_growth_insights clock one_record None None w = ret ([], w).
Proof.
  destruct (growth_eval clock one_record None None w)
    as [[_ E] | (i & g & Hg & _)]; [exact E |].
  exfalso. destruct i; cbn in Hg; discriminate.
Qed.

Lemma key_lookup {V : Type} (k : string) (v : V) :
  get String.eqb [(k, v)] k = Some v.
Proof. cbn [get]. now rewrite String.eqb_refl. Qed.

(** C3, at the failing input: the first call finds nothing to report and
    stores the empty result; the second call, made one clock reading later
    with the same filters, finds the fresh entry, does not serve it, and
    returns an insight computed from what the loader returns by then. *)
Theorem empty_result_not_served :
  exists (w1 w2 : World) (ins : InsightObject),
    generate_insights tick_clock [] [] None None (InsightsEngine_init 0)
    = ret ([], w1)
    /\ get String.eqb (cache (engine_cache w1)) (_generate_key None None)
       = Some ([], 0%Z)
    /\ (tick_clock (tick w1) - 0
        < timedelta_minutes (ttl_minutes (engine_cache w1)))%Z
    /\ generate_insights tick_clock one_record [] None None w1
       = ret ([ins], w2)
    /\ category ins = "investment_analysis"%string
    /\ computed_at ins = 3%Z.
Proof.
  set (k := _generate_key None None).
  set (w1 := {| tick := 1;
                engine_cache := {| cache := [(k, ([], 0%Z))];
                                   ttl_minutes := 10 |} |}).
  assert (E1 : generate_insights tick_clock [] [] None None
                 (InsightsEngine_init 0) = ret ([], w1)).
  { rewrite generate_insights_unfold. unfold mbind at 1.
    rewrite cache_get_absent by reflexivity. reflexivity. }
  assert (Hk : get String.eqb (cache (engine_cache w1)) k = Some ([], 0%Z))
    by apply key_lookup.
  assert (Hf : (tick_clock (tick w1) - 0
                < timedelta_minutes (ttl_minutes (engine_cache w1)))%Z)
    by (cbn; lia).
  destruct (investment_eval tick_clock one_record (ticked 1 w1))
    as (i & total & E4 & _).
  { exists (adoption_record HEALTHCARE 2023 0.5 5 10).
    split; [now left | cbn; lia]. }
  eexists w1, _, _. split; [exact E1 |]. split; [exact Hk |].
  split; [exact Hf |].
  split.
  - rewrite generate_insights_unfold. unfold mbind at 1.
    rewrite (cache_get_fresh tick_clock None None w1 [] 0%Z Hk Hf).
    cbn [ret truthy]. unfold compute_and_store.
    change (_apply_filters one_record None None) with one_record.
    change (_apply_filters (@nil AWSUsageRecord) None None)
      with (@nil AWSUsageRecord).
    cbv zeta. unfold mbind at 1. rewrite adoption_one_low. cbn [ret].
    unfold mbind at 1. cbn [_generate_correlation_insights one_record mret ret].
    unfold mbind at 1. rewrite growth_one. cbn [ret].
    unfold mbind at 1. rewrite E4. cbn [ret].
    unfold cache_set. cbn [mbind utcnow ret mret app]. reflexivity.
  - split; reflexivity.
Qed.

(** ** The adoption generator *)

(** *** The adoption generator *)

Lemma adoption_rates_values (records : list GenAIAdoptionRecord) (i : IndustryEnum) :
  values_for String.eqb (fun r : GenAIAdoptionRecord => value (industry r))
             adoption_rate (value i) records
  = adoption_rates_of records i.
Proof. reflexivity. Qed.

Lemma adoption_eval (clock : nat -> Z) (records : list GenAIAdoptionRecord)
    (w : World) :
  ((forall i, adoption_rates_of records i <> [] -> avg_adoption records i <= 0.6)
   /\ _generate_adoption_insights clock records w = ret ([], w))
  \/ exists (i : IndustryEnum) (count : Z),
       adoption_rates_of records i <> []
       /\ avg_adoption records i > 0.6
       /\ (forall j, adoption_rates_of records j <> [] ->
                     avg_adoption records j <= avg_adoption records i)
       /\ _generate_adoption_insights clock records w
          = ret ([adoption_insight (value i) (avg_adoption records i)
                    (len (adoption_rates_of records i)) count
                    (clock (tick w)) (clock (S (tick w)))],
                 ticked 2 w).
Proof.
  unfold _generate_adoption_insights.
  destruct records as [| r0 rest] eqn:Erec.
  { left. split; [| reflexivity]. intros i H. now destruct H. }
  rewrite <- Erec. clear Erec r0 rest.
  change (fold_left
            (fun d record =>
               append_to String.eqb d (value (industry record))
                         (adoption_rate record)) records [])
    with (group String.eqb (fun r : GenAIAdoptionRecord => value (industry r))
                adoption_rate records).
  set (g := group String.eqb (fun r : GenAIAdoptionRecord => value (industry r))
                  adoption_rate records).
  assert (Hg : forall k vs, In (k, vs) g <->
            vs = values_for String.eqb
                   (fun r : GenAIAdoptionRecord => value (industry r))
                   adoption_rate k records /\ vs <> [])
    by (intros; apply group_In, String.eqb_spec).
  assert (Hne : Forall (fun kv : string * list R => snd kv <> []) g).
  { apply Forall_forall. intros [k vs] H. apply Hg in H. tauto. }
  rewrite (map_values_mean g Hne). cbn [lift mbind ret].
  set (avgs := map (fun kv : string * list R => (fst kv, mean_of (snd kv))) g).
  assert (NDg : NoDup (keys g)) by apply group_NoDup, String.eqb_spec.
  assert (NDa : NoDup (keys avgs)).
  { unfold avgs, keys. rewrite map_map. cbn [fst]. exact NDg. }
  assert (Hentry : forall j, adoption_rates_of records j <> [] ->
                             In (value j, avg_adoption records j) avgs).
  { intros j Hj. unfold avgs. apply in_map_iff.
    exists (value j, adoption_rates_of records j). split; [reflexivity |].
    apply Hg. rewrite adoption_rates_values. tauto. }
  assert (Hkey : forall k v, In (k, v) avgs ->
            exists i, k = value i /\ v = avg_adoption records i
                      /\ adoption_rates_of records i <> []
                      /\ get String.eqb g k = Some (adoption_rates_of records i)).
  { intros k v H. apply in_map_iff in H as ([k' vs] & E & Hin).
    cbn [fst snd] in E. injection E as -> <-.
    assert (Hk : In k (keys g)) by (apply (in_map fst) in Hin; exact Hin).
    apply (group_keys String.eqb (fun r : GenAIAdoptionRecord => value (industry r))
                      adoption_rate String.eqb_spec) in Hk.
    apply in_map_iff in Hk as (r & <- & _).
    exists (industry r).
    pose proof (In_get String.eqb String.eqb_spec g _ _ NDg Hin) as Hget.
    apply Hg in Hin as [-> Hvs]. rewrite adoption_rates_values in *.
    repeat split; try assumption; reflexivity. }
  destruct (map fst (filter (fun kv : string * R =>
                               if Rgt_dec (snd kv) 0.6 then true else false) avgs))
    as [| h hs] eqn:Ehigh.
  - left. split; [| reflexivity]. intros i Hi.
    apply Hentry in Hi.
    destruct (Rgt_dec (avg_adoption records i) 0.6) as [G | NG]; [| lra].
    exfalso.
    assert (Hf : In (value i, avg_adoption records i)
                    (filter (fun kv : string * R =>
                               if Rgt_dec (snd kv) 0.6 then true else false) avgs)).
    { apply filter_In. split; [exact Hi |]. cbn [snd].
      destruct (Rgt_dec _ _); [reflexivity | contradiction]. }
    apply (in_map fst) in Hf. rewrite Ehigh in Hf. destruct Hf.
  - right.
    assert (Hhigh : exists k v, In (k, v) avgs /\ v > 0.6).
    { assert (Hh : In h (map fst (filter (fun kv : string * R =>
                               if Rgt_dec (snd kv) 0.6 then true else false) avgs)))
        by (rewrite Ehigh; now left).
      apply in_map_iff in Hh as ([k v] & _ & Hf).
      apply filter_In in Hf as [Hin Hv]. cbn [snd] in Hv.
      destruct (Rgt_dec v 0.6); [eauto | discriminate]. }
    destruct Hhigh as (kh & vh & Hinh & Hvh).
    assert (Hane : avgs <> []) by (intros E; rewrite E in Hinh; destruct Hinh).
    destruct (max_key_spec avgs Hane) as (k & v & Hmax & Hkv & Hall).
    rewrite Hmax. cbn [lift mbind ret]. unfold getitem.
    rewrite (In_get String.eqb String.eqb_spec avgs k v NDa Hkv).
    cbn [lift mbind ret].
    destruct (Hkey k v Hkv) as (i & -> & -> & Hi & Hget).
    rewrite Hget. cbn [lift mbind ret utcnow].
    rewrite Forall_forall in Hall.
    exists i, (len avgs). split; [exact Hi |]. split.
    + specialize (Hall _ Hinh). cbn [snd] in Hall. lra.
    + split; [| reflexivity].
      intros j Hj. apply Hentry in Hj. exact (Hall _ Hj).
Qed.


(** ** Pearson correlation and confidence: ranges *)

(** *** Pearson correlation: every input *)

Lemma round3_unit (r : R) : -1 <= r <= 1 -> -1 <= round r 3 <= 1.
Proof.
  intros Hr.
  pose proof (round3_of_thousandth (-1000)) as Hlo.
  pose proof (round3_of_thousandth 1000) as Hhi.
  split.
  - apply Rle_trans with (round (IZR (-1000) / 1000) 3);
      [rewrite Hlo; lra | apply round_mono; lra].
  - apply Rle_trans with (round (IZR 1000 / 1000) 3);
      [apply round_mono; lra | rewrite Hhi; lra].
Qed.

Lemma coefficient_unit (x y : list R) :
  len x = len y -> sqrt (sum_sq x * sum_sq y) <> 0 ->
  -1 <= covariation x y / sqrt (sum_sq x * sum_sq y) <= 1.
Proof.
  intros Hlen Hd.
  pose proof (sum_sq_nonneg x). pose proof (sum_sq_nonneg y).
  pose proof (sqrt_pos (sum_sq x * sum_sq y)).
  apply ratio_in_unit; [lra |].
  replace (sqrt (sum_sq x * sum_sq y) ^ 2) with (sum_sq x * sum_sq y).
  - apply cauchy_schwarz. now apply len_length.
  - cbn [pow]. rewrite Rmult_1_r, sqrt_sqrt; [reflexivity | nra].
Qed.

Lemma p_bucket_values (t : R) : In (p_bucket t) p_values.
Proof.
  unfold p_bucket, p_values.
  destruct (Rgt_dec t 2.576); [cbn; tauto |].
  destruct (Rgt_dec t 1.96); [cbn; tauto |].
  destruct (Rgt_dec t 1.645); cbn; tauto.
Qed.

Lemma pearson_returns :
  forall x y : list R,
    exists (r p : R) (n : Z),
      _calculate_pearson_correlation x y = ret (r, p, n)
      /\ -1 <= r <= 1
      /\ In p p_values
      /\ (n = 0%Z \/ n = len x).
Proof.
  intros x y.
  destruct (Z.eq_dec (len x) (len y)) as [E | NE];
    [destruct (Z_lt_le_dec (len x) 2) as [L | G] |].
  - rewrite pearson_short by (right; lia).
    exists 0, 1, 0%Z. repeat split; try lra; [cbn; tauto | now left].
  - rewrite pearson_eval by assumption. cbv zeta.
    destruct (Req_dec_T (sqrt (sum_sq x * sum_sq y)) 0) as [Z0 | NZ].
    + exists 0, 1, (len x). repeat split; try lra; [cbn; tauto | now right].
    + eexists _, _, _. split; [reflexivity |].
      split; [apply round3_unit, coefficient_unit; assumption |].
      split; [| now right].
      destruct (Rge_dec _ _); [cbn; tauto | apply p_bucket_values].
  - rewrite pearson_short by (left; assumption).
    exists 0, 1, 0%Z. repeat split; try lra; [cbn; tauto | now left].
Qed.

Lemma p_values_unit (p : R) : In p p_values -> 0 <= p <= 1.
Proof.
  unfold p_values. cbn.
  intros [<- | [<- | [<- | [<- | [<- | [<- | []]]]]]]; lra.
Qed.

Lemma confidence_in_range (p : R) (n : Z) (d : R) :
  0 <= p <= 1 -> (0 <= n)%Z -> 0 <= _calculate_confidence p n d <= 0.95.
Proof.
  intros Hp Hn. unfold _calculate_confidence.
  pose proof (Rabs_pos d) as Hd. apply IZR_le in Hn.
  assert (H0 : round (IZR 0 / 1000) 3 = IZR 0 / 1000)
    by apply round3_of_thousandth.
  assert (H95 : round (IZR 950 / 1000) 3 = IZR 950 / 1000)
    by apply round3_of_thousandth.
  split.
  - apply Rle_trans with (round (IZR 0 / 1000) 3); [rewrite H0; lra |].
    apply round_mono. apply Rmin_glb; [lra |].
    assert (0 <= (1 - p) * (IZR n / 100) * (1.0 + Rabs d / 2))
      by (apply Rmult_le_pos; [apply Rmult_le_pos |]; lra).
    lra.
  - apply Rle_trans with (round (IZR 950 / 1000) 3); [| rewrite H95; lra].
    apply round_mono. eapply Rle_trans; [apply Rmin_l | lra].
Qed.


(** X13: the confidence score is in [0, 0.95] for a p-value in [0, 1] and a
    sample size that is not negative, whatever the effect size. *)
Theorem confidence_range (p : R) (n : Z) (d : R) :
  0 <= p <= 1 -> (0 <= n)%Z -> 0 <= _calculate_confidence p n d <= 0.95.
Proof. apply confidence_in_range. Qed.

Lemma confidence_range_witness : 0 <= _calculate_confidence 0.05 50 0.5 <= 0.95.
Proof. apply confidence_range; [lra | lia]. Defined.

(** ** The correlation generator *)

(** *** The correlation generator *)

Lemma fold_left_invariant {A B : Type} (P : B -> Prop) (f : B -> A -> B)
    (l : list A) (acc : B) :
  P acc -> (forall a x, In x l -> P a -> P (f a x)) -> P (fold_left f l acc).
Proof.
  revert acc. induction l as [| x l IH]; intros acc H0 Hstep; cbn [fold_left];
    [exact H0 |].
  apply IH; [apply Hstep; [now left | exact H0] |].
  intros a y Hy. apply Hstep. now right.
Qed.

Lemma In_set {K V : Type} (eqb : K -> K -> bool) (d : list (K * V))
    (k k0 : K) (v v0 : V) :
  In (k, v) (set eqb d k0 v0) -> v = v0 \/ In (k, v) d.
Proof.
  induction d as [| [k1 v1] d IH]; cbn [set].
  - intros [[= _ <-] | []]. now left.
  - destruct (eqb k0 k1).
    + intros [[= _ <-] | H]; [now left | right; now right].
    + intros [E | H]; [right; now left |].
      destruct (IH H); [now left | right; now right].
Qed.

Lemma get_value_In {K V : Type} (eqb : K -> K -> bool) (d : list (K * V))
    (k : K) (v : V) :
  get eqb d k = Some v -> exists k', In (k', v) d.
Proof.
  induction d as [| [k1 v1] d IH]; cbn [get]; [discriminate |].
  destruct (eqb k k1).
  - intros [= <-]. exists k1. now left.
  - intros H. destruct (IH H) as [k' Hk']. exists k'. now right.
Qed.

Lemma lookup_values {K V : Type} (eqb : K -> K -> bool) (key : V -> K)
    (l : list V) :
  forall k v,
    In (k, v) (fold_left (fun d r => set eqb d (key r) r) l []) -> In v l.
Proof.
  apply (fold_left_invariant
           (fun d => forall k v, In (k, v) d -> In v l)).
  - intros k v [].
  - intros d r Hr Hd k v H. apply In_set in H as [-> | H]; eauto.
Qed.

Section Matched.
Variables (genai : list GenAIAdoptionRecord) (aws : list AWSUsageRecord).

Lemma matched_invariant :
  List.length (fst (matched_values genai aws))
  = List.length (snd (matched_values genai aws))
  /\ Forall (fun v => exists r, In r genai /\ v = adoption_rate r)
            (fst (matched_values genai aws))
  /\ Forall (fun v => exists a, In a aws /\ v = aws_score a)
            (snd (matched_values genai aws)).
Proof.
  unfold matched_values.
  set (gl := fold_left
               (fun d record =>
                  set key_eqb d (value (industry record), year record) record)
               genai []).
  set (al := fold_left
               (fun d record =>
                  set key_eqb d (value (industry record), year record) record)
               aws []).
  apply (fold_left_invariant
           (fun acc : list R * list R =>
              List.length (fst acc) = List.length (snd acc)
              /\ Forall (fun v => exists r, In r genai /\ v = adoption_rate r)
                        (fst acc)
              /\ Forall (fun v => exists a, In a aws /\ v = aws_score a)
                        (snd acc))).
  - cbn. repeat split; constructor.
  - intros acc [k r] Hin (Hl & Hg & Ha). cbn [fst snd].
    destruct (get key_eqb al k) as [a |] eqn:E; [| tauto].
    cbn [fst snd]. rewrite !length_app, Hl. split; [reflexivity |].
    split; apply Forall_app; split; try assumption;
      constructor; try constructor.
    + exists r. split; [| reflexivity].
      eapply lookup_values. exact Hin.
    + exists a. split; [| reflexivity].
      apply get_value_In in E as [k' Hk']. eapply lookup_values. exact Hk'.
Qed.

End Matched.



Lemma correlation_body (clock : nat -> Z) (genai : list GenAIAdoptionRecord)
    (aws : list AWSUsageRecord) (w : World) :
  genai <> [] -> aws <> [] ->
  _generate_correlation_insights clock genai aws w
  = (if (len (fst (matched_values genai aws)) >=? 3)%Z then
       res <~ lift (_calculate_pearson_correlation
                      (fst (matched_values genai aws))
                      (snd (matched_values genai aws))) ;;
       if Rgt_dec (Rabs (fst (fst res))) 0.3 then
         t_id <~ utcnow clock ;;
         t_at <~ utcnow clock ;;
         mret [correlation_insight (fst (fst res)) (snd (fst res)) (snd res)
                 t_id t_at]
       else mret []
     else mret []) w.
Proof.
  intros Hg Ha. unfold _generate_correlation_insights.
  destruct genai as [| g genai']; [congruence |].
  destruct aws as [| a aws']; [congruence |].
  destruct (matched_values (g :: genai') (a :: aws')) as [gv av].
  cbn [fst snd].
  destruct (len gv >=? 3)%Z; [| reflexivity].
  unfold mbind, lift.
  destruct (_calculate_pearson_correlation gv av) as [e | [[r p] n]];
    reflexivity.
Qed.

(** The correlation generator, evaluated. *)
Lemma correlation_eval (clock : nat -> Z) (genai : list GenAIAdoptionRecord)
    (aws : list AWSUsageRecord) (w : World) :
  let gv := fst (matched_values genai aws) in
  let av := snd (matched_values genai aws) in
  (_generate_correlation_insights clock genai aws w = ret ([], w)
   /\ (genai = [] \/ aws = [] \/ (len gv < 3)%Z
       \/ exists r p n, _calculate_pearson_correlation gv av = ret (r, p, n)
                        /\ Rabs r <= 0.3))
  \/ exists r p : R,
       _calculate_pearson_correlation gv av = ret (r, p, len gv)
       /\ genai <> [] /\ aws <> [] /\ (3 <= len gv)%Z
       /\ Rabs r > 0.3 /\ -1 <= r <= 1 /\ In p p_values
       /\ _generate_correlation_insights clock genai aws w
          = ret ([correlation_insight r p (len gv)
                    (clock (tick w)) (clock (S (tick w)))],
                 ticked 2 w).
Proof.
  assert (Cg : genai = [] \/ genai <> [])
    by (destruct genai; [now left | right; discriminate]).
  assert (Ca : aws = [] \/ aws <> [])
    by (destruct aws; [now left | right; discriminate]).
  intros gv av.
  destruct Cg as [Eg | Hg].
  { left. split; [| now left]. now rewrite Eg. }
  destruct Ca as [Ea | Ha].
  { left. split; [| right; now left]. rewrite Ea. now destruct genai. }
  rewrite correlation_body by assumption. fold gv av.
  destruct (Z.geb_spec (len gv) 3) as [G | L];
    [| left; split; [reflexivity | right; right; left; lia]].
  destruct (matched_invariant genai aws) as (Hlen & _ & _). fold gv av in Hlen.
  destruct (pearson_returns gv av) as (r & p & n & E & Hr & Hp & Hn).
  assert (Hn' : n = len gv).
  { destruct Hn as [-> | ->]; [| reflexivity]. exfalso.
    rewrite pearson_eval in E by (try apply len_length; try assumption; lia).
    cbv zeta in E. destruct (Req_dec_T _ 0); injection E; lia. }
  subst n. rewrite E. cbn [mbind lift ret fst snd].
  destruct (Rgt_dec (Rabs r) 0.3) as [Gr | NGr].
  - right. exists r, p.
    split; [reflexivity |]. split; [exact Hg |]. split; [exact Ha |].
    split; [lia |]. split; [lra |]. split; [exact Hr |].
    split; [exact Hp | reflexivity].
  - left. split; [reflexivity |]. right; right; right.
    exists r, p, (len gv). split; [reflexivity | lra].
Qed.

(** ** The correlation generator and the pipeline *)





(** *** The whole pipeline *)

Lemma investment_none (clock : nat -> Z) (records : list GenAIAdoptionRecord)
    (w : World) :
  (forall r, In r records -> (use_cases_count r <= 0)%Z) ->
  _generate_investment_insights clock records w = ret ([], w).
Proof.
  intros H. unfold _generate_investment_insights.
  destruct records as [| r0 rest] eqn:E; [reflexivity |]. rewrite <- E in *.
  rewrite investment_efficiency_eval.
  assert (F : filter (fun r => (use_cases_count r >? 0)%Z) records = []).
  { clear E. induction records as [| r l IH]; [reflexivity |]. cbn [filter].
    destruct (Z.gtb_spec (use_cases_count r) 0) as [G | _].
    - specialize (H r (or_introl eq_refl)). lia.
    - apply IH. intros; apply H; now right. }
  rewrite F. reflexivity.
Qed.

Lemma investment_cases (clock : nat -> Z) (records : list GenAIAdoptionRecord)
    (w : World) :
  _generate_investment_insights clock records w = ret ([], w)
  \/ exists i total,
       _generate_investment_insights clock records w
       = ret ([investment_insight (value i) (avg_efficiency records i)
                 (len (efficiencies_of records i)) total
                 (clock (tick w)) (clock (S (tick w)))],
              ticked 2 w).
Proof.
  assert (D : (exists r, In r records /\ (use_cases_count r > 0)%Z)
              \/ forall r, In r records -> (use_cases_count r <= 0)%Z).
  { induction records as [| r l IH]; [right; intros ? [] |].
    destruct (Z_gt_le_dec (use_cases_count r) 0) as [G | L].
    - left. exists r. split; [now left | exact G].
    - destruct IH as [(r' & Hr' & G) | Hall].
      + left. exists r'. split; [now right | exact G].
      + right. intros r' [<- | H]; auto. }
  destruct D as [Hex | Hall].
  - right. destruct (investment_eval clock records w Hex) as (i & t & E & _).
    eauto.
  - left. now apply investment_none.
Qed.

Lemma Rmin_range (cap x : R) : 0 <= cap <= 0.95 -> 0 <= x -> 0 <= Rmin cap x <= 0.95.
Proof.
  intros Hc Hx. split; [apply Rmin_glb; lra |].
  eapply Rle_trans; [apply Rmin_l | lra].
Qed.

Lemma count_ratio_nonneg {A : Type} (l : list A) (d : R) :
  0 < d -> 0 <= IZR (len l) / d.
Proof.
  intros Hd. pose proof (IZR_le _ _ (len_nonneg l)) as H.
  unfold Rdiv. apply Rmult_le_pos; [exact H |].
  left. now apply Rinv_0_lt_compat.
Qed.

(** The miss path returns on every input, and what it returns is well
    formed. *)
Lemma compute_and_store_eval (clock : nat -> Z)
    (genai : list GenAIAdoptionRecord) (aws : list AWSUsageRecord)
    (years : option (list Z)) (industries : option (list string)) (w : World) :
  exists (out : list InsightObject) (w' : World),
    compute_and_store clock genai aws years industries w = ret (out, w')
    /\ well_formed out.
Proof.
  unfold compute_and_store. cbv zeta.
  set (fg := _apply_filters genai years industries).
  set (fa := _apply_filters aws years industries).
  (* adoption *)
  assert (H1 : exists o1 w1 (b1 : bool),
             _generate_adoption_insights clock fg w = ret (o1, w1)
             /\ map category o1 = (if b1 then ["adoption_trends"%string] else [])
             /\ Forall (fun ins => 0 <= confidence ins <= 0.95) o1).
  { destruct (adoption_eval clock fg w) as [[_ E] | (i & c & _ & _ & _ & E)].
    - exists [], w, false. split; [exact E |]. split; [reflexivity | constructor].
    - eexists _, _, true. split; [exact E |]. split; [reflexivity |].
      apply Forall_cons; [| apply Forall_nil]; cbn [confidence adoption_insight];
        apply Rmin_range; try lra; apply count_ratio_nonneg; lra. }
  destruct H1 as (o1 & w1 & b1 & E1 & C1 & F1).
  assert (H2 : exists o2 w2 (b2 : bool),
             _generate_correlation_insights clock fg fa w1 = ret (o2, w2)
             /\ map category o2
                = (if b2 then ["correlation_analysis"%string] else [])
             /\ Forall (fun ins => 0 <= confidence ins <= 0.95) o2).
  { destruct (correlation_eval clock fg fa w1)
      as [[E _] | (r & p & _ & _ & _ & _ & _ & _ & Hp & E)].
    - exists [], w1, false. split; [exact E |]. split; [reflexivity | constructor].
    - eexists _, _, true. split; [exact E |]. split; [reflexivity |].
      apply Forall_cons; [| apply Forall_nil];
        cbn [confidence correlation_insight];
        apply confidence_in_range;
        try (now apply p_values_unit); apply len_nonneg. }
  destruct H2 as (o2 & w2 & b2 & E2 & C2 & F2).
  assert (H3 : exists o3 w3 (b3 : bool),
             _generate_growth_insights clock genai years industries w2
             = ret (o3, w3)
             /\ map category o3 = (if b3 then ["growth_trends"%string] else [])
             /\ Forall (fun ins => 0 <= confidence ins <= 0.95) o3).
  { destruct (growth_eval clock genai years industries w2)
      as [[_ E] | (i & g & _ & _ & E)].
    - exists [], w2, false. split; [exact E |]. split; [reflexivity | constructor].
    - destruct (Rgt_dec g 0.1).
      + eexists _, _, true. split; [exact E |]. split; [reflexivity |].
        apply Forall_cons; [| apply Forall_nil]; cbn [confidence growth_insight];
          apply Rmin_range; try lra; apply count_ratio_nonneg; lra.
      + exists [], w2, false. split; [exact E |]. split; [reflexivity | constructor]. }
  destruct H3 as (o3 & w3 & b3 & E3 & C3 & F3).
  assert (H4 : exists o4 w4 (b4 : bool),
             _generate_investment_insights clock fg w3 = ret (o4, w4)
             /\ map category o4
                = (if b4 then ["investment_analysis"%string] else [])
             /\ Forall (fun ins => 0 <= confidence ins <= 0.95) o4).
  { destruct (investment_cases clock fg w3) as [E | (i & t & E)].
    - exists [], w3, false. split; [exact E |]. split; [reflexivity | constructor].
    - eexists _, _, true. split; [exact E |]. split; [reflexivity |].
      apply Forall_cons; [| apply Forall_nil]; cbn [confidence investment_insight];
        apply Rmin_range; try lra; apply count_ratio_nonneg; lra. }
  destruct H4 as (o4 & w4 & b4 & E4 & C4 & F4).
  eexists (o1 ++ o2 ++ o3 ++ o4), _. split.
  - unfold mbind at 1. rewrite E1. cbn [ret].
    unfold mbind at 1. rewrite E2. cbn [ret].
    unfold mbind at 1. rewrite E3. cbn [ret].
    unfold mbind at 1. rewrite E4. cbn [ret].
    unfold cache_set. cbn [mbind utcnow ret mret app]. reflexivity.
  - split.
    + exists b1, b2, b3, b4. rewrite !map_app, C1, C2, C3, C4. reflexivity.
    + repeat (apply Forall_app; split); assumption.
Qed.

(** ** The cache and the engine *)

(** *** The cache on its own *)

Lemma In_del {K V : Type} (eqb : K -> K -> bool) (d : list (K * V)) (k : K)
    (x : K * V) :
  In x (del eqb d k) -> In x d.
Proof.
  induction d as [| [k0 v0] d IH]; cbn [del]; [tauto |].
  destruct (eqb k k0); [now right |].
  intros [E | H]; [now left | right; auto].
Qed.

Lemma get_del_other {V : Type} (d : list (string * V)) (k k' : string) :
  k' <> k -> get String.eqb (del String.eqb d k) k' = get String.eqb d k'.
Proof.
  intros N. induction d as [| [k0 v0] d IH]; cbn [del get]; [reflexivity |].
  destruct (String.eqb_spec k k0) as [-> | N0].
  - destruct (String.eqb_spec k' k0); [contradiction | reflexivity].
  - cbn [get]. destruct (String.eqb k' k0); [reflexivity | exact IH].
Qed.

Lemma NoDup_del {V : Type} (d : list (string * V)) (k : string) :
  NoDup (keys d) -> NoDup (keys (del String.eqb d k)).
Proof.
  induction d as [| [k0 v0] d IH]; cbn [del keys map fst]; [auto |].
  intros ND. inversion ND as [| ? ? Hnin ND']; subst.
  destruct (String.eqb k k0); [exact ND' |].
  cbn [map fst]. constructor; [| now apply IH].
  intros H. apply Hnin. apply in_map_iff in H as ([k1 v1] & <- & H).
  apply In_del in H. now apply (in_map fst) in H.
Qed.

(** X1: [InsightCache.set] then [InsightCache.get] with the same filters: while
    the entry is younger than the TTL, the stored list comes back, empty or
    not, and the cache is left as it is; an entry under another key is not
    touched by the store. *)
Theorem cache_set_get :
  forall (clock : nat -> Z) (years : option (list Z))
         (industries : option (list string)) (insights : list InsightObject)
         (w : World),
    exists w1 : World,
      cache_set clock years industries insights w = ret (tt, w1)
      /\ tick w1 = S (tick w)
      /\ (forall k, k <> _generate_key years industries ->
            get String.eqb (cache (engine_cache w1)) k
            = get String.eqb (cache (engine_cache w)) k)
      /\ ((clock (tick w1) - clock (tick w)
           < timedelta_minutes (ttl_minutes (engine_cache w)))%Z ->
          cache_get clock years industries w1
          = ret (Some insights, ticked 1 w1)).
Proof.
  intros clock years industries insights w.
  eexists. split; [reflexivity |]. cbn [tick engine_cache cache ttl_minutes].
  split; [reflexivity |]. split.
  - intros k Hk. rewrite (get_set String.eqb String.eqb_spec).
    destruct (String.eqb_spec k (_generate_key years industries));
      [contradiction | reflexivity].
  - intros Hf. apply (cache_get_fresh clock years industries _ insights
                        (clock (tick w))).
    + cbn [tick engine_cache cache].
      now rewrite (get_set String.eqb String.eqb_spec), String.eqb_refl.
    + exact Hf.
Qed.

Lemma cache_set_get_witness :
  exists w1 : World,
    cache_set tick_clock None None [] (InsightsEngine_init 0) = ret (tt, w1)
    /\ cache_get tick_clock None None w1 = ret (Some [], ticked 1 w1).
Proof.
  destruct (cache_set_get tick_clock None None [] (InsightsEngine_init 0))
    as (w1 & E & Ht & _ & H).
  exists w1. split; [exact E |]. apply H. rewrite Ht. cbn. lia.
Defined.

(** X2: [InsightCache.get] on an entry as old as the TTL or older: nothing is
    returned and the entry is deleted, so the next lookup of the same
    filters misses without reading the clock; other entries stay. *)
Theorem cache_get_evicts :
  forall (clock : nat -> Z) (years : option (list Z))
         (industries : option (list string)) (insights : list InsightObject)
         (ts : Z) (w : World),
    NoDup (keys (cache (engine_cache w))) ->
    get String.eqb (cache (engine_cache w)) (_generate_key years industries)
    = Some (insights, ts) ->
    (timedelta_minutes (ttl_minutes (engine_cache w)) <= clock (tick w) - ts)%Z ->
    exists w' : World,
      cache_get clock years industries w = ret (None, w')
      /\ cache_get clock years industries w' = ret (None, w')
      /\ NoDup (keys (cache (engine_cache w')))
      /\ forall k, k <> _generate_key years industries ->
           get String.eqb (cache (engine_cache w')) k
           = get String.eqb (cache (engine_cache w)) k.
Proof.
  intros clock years industries insights ts w ND Hget Hs.
  eexists. split; [exact (cache_get_stale clock years industries w insights ts Hget Hs) |].
  cbn [with_cache engine_cache cache ticked].
  split; [| split].
  - apply cache_get_absent. cbn [engine_cache cache]. now apply get_del_same.
  - now apply NoDup_del.
  - intros k Hk. now apply get_del_other.
Qed.

Lemma cache_get_evicts_witness :
  exists w' : World,
    cache_get slow_clock None None (one_entry_world []) = ret (None, w')
    /\ cache_get slow_clock None None w' = ret (None, w').
Proof.
  destruct (cache_get_evicts slow_clock None None [] 0%Z (one_entry_world []))
    as (w' & E1 & E2 & _).
  - cbn. repeat constructor. intros [].
  - apply key_lookup.
  - cbn. lia.
  - exists w'. split; assumption.
Defined.

(** X3: after [InsightCache.clear] every lookup misses, for every filter
    combination, and does not read the clock. *)
Theorem cache_clear_then_get :
  forall (clock : nat -> Z) (w : World) (years : option (list Z))
         (industries : option (list string)),
    exists w' : World,
      cache_clear w = ret (tt, w')
      /\ tick w' = tick w
      /\ ttl_minutes (engine_cache w') = ttl_minutes (engine_cache w)
      /\ cache_get clock years industries w' = ret (None, w').
Proof.
  intros clock w years industries. eexists. split; [reflexivity |].
  split; [reflexivity |]. split; [reflexivity |]. reflexivity.
Qed.

(** *** The engine and its cache *)

Lemma cache_get_cases (clock : nat -> Z) (years : option (list Z))
    (industries : option (list string)) (w : World) :
  exists (c : option (list InsightObject)) (w1 : World),
    cache_get clock years industries w = ret (c, w1)
    /\ (forall x, In x (cache (engine_cache w1)) ->
                  In x (cache (engine_cache w)))
    /\ (forall l, c = Some l ->
          exists ts, In (_generate_key years industries, (l, ts))
                        (cache (engine_cache w))).
Proof.
  unfold cache_get.
  destruct (get String.eqb (cache (engine_cache w))
                (_generate_key years industries)) as [[ins ts] |] eqn:E.
  - cbn [mbind utcnow ret tick engine_cache].
    destruct (_ <? _)%Z.
    + eexists _, _. split; [reflexivity |]. split; [auto |].
      intros l [= <-]. exists ts.
      now apply (get_In String.eqb String.eqb_spec).
    + eexists _, _. split; [reflexivity |]. cbn [engine_cache cache].
      split; [intros x; apply In_del | discriminate].
  - eexists _, _. split; [reflexivity |]. split; [auto | discriminate].
Qed.

(** X5: [generate_insights] never raises.  From a cache that holds only well
    formed results (an empty one, to begin with) it returns a well formed
    result (at most one insight per generator, in the order adoption,
    correlation, growth, investment, each with confidence in [0, 0.95]) and
    leaves such a cache. *)
Theorem generate_insights_well_formed :
  forall (clock : nat -> Z) (genai : list GenAIAdoptionRecord)
         (aws : list AWSUsageRecord) (years : option (list Z))
         (industries : option (list string)) (w : World),
    exists (out : list InsightObject) (w' : World),
      generate_insights clock genai aws years industries w = ret (out, w')
      /\ (cache_ok w -> well_formed out /\ cache_ok w').
Proof.
  intros clock genai aws years industries w.
  rewrite generate_insights_unfold.
  destruct (cache_get_cases clock years industries w)
    as (c & w1 & Ec & Hsub & Hc).
  unfold mbind at 1. rewrite Ec. cbn [ret].
  destruct (truthy c) eqn:Et.
  - destruct c as [[| i l] |]; try discriminate.
    eexists _, _. split; [reflexivity |]. intros Hok. split.
    + destruct (Hc _ eq_refl) as [ts Hin]. exact (Hok _ _ _ Hin).
    + intros k ins ts H. apply Hsub in H. exact (Hok _ _ _ H).
  - destruct (compute_and_store_eval clock genai aws years industries w1)
      as (out & w' & E & Hwf).
    exists out, w'. split; [exact E |]. intros Hok. split; [exact Hwf |].
    apply compute_and_store_result in E as (t & _ & Ew').
    intros k ins ts H. rewrite Ew' in H. cbn [cache] in H.
    apply In_set in H as [[= -> _] | H]; [exact Hwf |].
    apply Hsub in H. exact (Hok _ _ _ H).
Qed.

Lemma generate_insights_well_formed_witness :
  exists (out : list InsightObject) (w' : World),
    generate_insights tick_clock one_record [] None None (InsightsEngine_init 0)
    = ret (out, w')
    /\ well_formed out /\ cache_ok w'.
Proof.
  destruct (generate_insights_well_formed tick_clock one_record [] None None
              (InsightsEngine_init 0)) as (out & w' & E & H).
  exists out, w'. split; [exact E |]. apply H. intros k ins ts [].
Defined.

(** ** Rounding, and Pearson under a change of units *)

Lemma generate_insights_round_trip_witness :
  exists (r1 : list InsightObject) (w1 : World),
    generate_insights tick_clock one_record [] None None (InsightsEngine_init 0)
    = ret (r1, w1)
    /\ r1 <> []
    /\ generate_insights tick_clock [] [] None None w1 = ret (r1, ticked 1 w1).
Proof.
  destruct (investment_eval tick_clock one_record (InsightsEngine_init 0))
    as (i & total & E4 & _).
  { exists (adoption_record HEALTHCARE 2023 0.5 5 10).
    split; [now left | cbn; lia]. }
  set (ins := investment_insight (value i) (avg_efficiency one_record i)
                (len (efficiencies_of one_record i)) total
                (tick_clock 0) (tick_clock 1)) in *.
  set (w1 := {| tick := 3;
                engine_cache :=
                  {| cache := [(_generate_key None None, ([ins], 2%Z))];
                     ttl_minutes := 10 |} |}).
  assert (E1 : generate_insights tick_clock one_record [] None None
                 (InsightsEngine_init 0) = ret ([ins], w1)).
  { rewrite generate_insights_unfold. unfold mbind at 1.
    rewrite cache_get_absent by reflexivity. cbn [ret truthy].
    unfold compute_and_store.
    change (_apply_filters one_record None None) with one_record.
    change (_apply_filters (@nil AWSUsageRecord) None None)
      with (@nil AWSUsageRecord).
    cbv zeta. unfold mbind at 1. rewrite adoption_one_low. cbn [ret].
    unfold mbind at 1. cbn [_generate_correlation_insights one_record mret ret].
    unfold mbind at 1. rewrite growth_one. cbn [ret].
    unfold mbind at 1. rewrite E4. cbn [ret].
    unfold cache_set. cbn [mbind utcnow ret mret app]. reflexivity. }
  exists [ins], w1. split; [exact E1 |]. split; [discriminate |].
  destruct (generate_insights_round_trip tick_clock None None one_record []
              [] [] (InsightsEngine_init 0) w1 [ins] E1)
    as (ts & Hts & H); [discriminate |].
  apply H. unfold w1 in Hts. cbn [engine_cache cache] in Hts.
  rewrite key_lookup in Hts. injection Hts as <-. cbn. lia.
Defined.

(** *** Rounding is odd *)






(** *** Pearson correlation under a change of units *)

Section Affine.
Variables a b : R.
Hypothesis a_pos : 0 < a.

Let f (v : R) : R := a * v + b.









End Affine.



(** ** Cohen's d *)

(** *** Cohen's d *)








(** ** Filters, the growth generator and the cache key *)

(** *** Filters compose *)

Section Filters.
Context {A : Type} `{RecordLike A}.

Lemma apply_filters_cons (r : A) (l : list A) (years : option (list Z))
    (industries : option (list string)) :
  _apply_filters (r :: l) years industries
  = if excluded_year years (year r) || excluded_industry industries (industry r)
    then _apply_filters l years industries
    else r :: _apply_filters l years industries.
Proof.
  cbn [_apply_filters].
  destruct (excluded_year years (year r)),
           (excluded_industry industries (industry r)); reflexivity.
Qed.

Lemma apply_filters_years_then_industries (l : list A)
    (years : option (list Z)) (industries : option (list string)) :
  _apply_filters (_apply_filters l years None) None industries
  = _apply_filters l years industries.
Proof.
  induction l as [| r l IH]; [reflexivity |].
  rewrite !apply_filters_cons. cbn [excluded_industry truthy andb orb].
  rewrite orb_false_r.
  destruct (excluded_year years (year r)); cbn [orb]; [exact IH |].
  rewrite apply_filters_cons. cbn [excluded_year truthy andb orb]. now rewrite IH.
Qed.

Lemma apply_filters_industries_then_years (l : list A)
    (years : option (list Z)) (industries : option (list string)) :
  _apply_filters (_apply_filters l None industries) years None
  = _apply_filters l years industries.
Proof.
  induction l as [| r l IH]; [reflexivity |].
  rewrite !apply_filters_cons. cbn [excluded_year truthy andb orb].
  destruct (excluded_industry industries (industry r)); cbn [orb].
  - rewrite IH. now rewrite orb_true_r.
  - rewrite apply_filters_cons. cbn [excluded_industry truthy andb orb].
    rewrite !orb_false_r, IH. reflexivity.
Qed.

Lemma apply_filters_idempotent (l : list A) (years : option (list Z))
    (industries : option (list string)) :
  _apply_filters (_apply_filters l years industries) years industries
  = _apply_filters l years industries.
Proof.
  induction l as [| r l IH]; [reflexivity |].
  rewrite apply_filters_cons.
  destruct (excluded_year years (year r)
            || excluded_industry industries (industry r)) eqn:E; [exact IH |].
  rewrite apply_filters_cons, E, IH. reflexivity.
Qed.

Lemma apply_filters_In (l : list A) (years : option (list Z))
    (industries : option (list string)) (r : A) :
  In r (_apply_filters l years industries) -> In r l.
Proof.
  induction l as [| r0 l IH]; [tauto |].
  rewrite apply_filters_cons.
  destruct (_ || _); [right; auto |].
  intros [E | Hin]; [now left | right; auto].
Qed.

End Filters.

(** X15: [_apply_filters] composes: filtering by years and then by industries,
    or the other way round, is filtering by both at once; filtering twice
    with the same filters is filtering once; nothing is returned that was
    not given. *)
Theorem apply_filters_compose :
  forall (A : Type) (RL : RecordLike A) (l : list A)
         (years : option (list Z)) (industries : option (list string)),
    _apply_filters (_apply_filters l years None) None industries
    = _apply_filters l years industries
    /\ _apply_filters (_apply_filters l None industries) years None
       = _apply_filters l years industries
    /\ _apply_filters (_apply_filters l years industries) years industries
       = _apply_filters l years industries
    /\ (forall r, In r (_apply_filters l years industries) -> In r l)
    /\ _apply_filters l None None = l.
Proof.
  intros A RL l years industries.
  split; [apply apply_filters_years_then_industries |].
  split; [apply apply_filters_industries_then_years |].
  split; [apply apply_filters_idempotent |].
  split; [apply apply_filters_In |].
  induction l as [| r l IH]; [reflexivity |].
  rewrite apply_filters_cons. cbn. now rewrite IH.
Qed.

(** *** The growth generator on filtered records *)

Lemma industry_year_data_prefiltered (records : list GenAIAdoptionRecord)
    (years : option (list Z)) (industries : option (list string)) :
  industry_year_data records years industries
  = industry_year_data (_apply_filters records years industries) None None.
Proof.
  unfold industry_year_data.
  generalize (@nil (string * list (Z * list R))) as acc.
  induction records as [| r records IH]; intros acc; [reflexivity |].
  rewrite apply_filters_cons. cbn [fold_left].
  destruct (excluded_industry industries (industry r)) eqn:Ei.
  - rewrite orb_true_r. apply IH.
  - destruct (excluded_year years (year r)) eqn:Ey; cbn [orb]; [apply IH |].
    cbn [fold_left excluded_industry excluded_year truthy andb]. apply IH.
Qed.

(** X16: the growth generator, given all records and the filters, does what it
    does on the filtered records with no filter: it sees the same filtered
    view as the other generators. *)
Theorem growth_on_filtered_records :
  forall (clock : nat -> Z) (records : list GenAIAdoptionRecord)
         (years : option (list Z)) (industries : option (list string))
         (w : World),
    _generate_growth_insights clock records years industries w
    = _generate_growth_insights clock
        (_apply_filters records years industries) None None w.
Proof.
  intros clock records years industries w.
  unfold _generate_growth_insights.
  rewrite <- industry_year_data_prefiltered.
  destruct (_apply_filters records years industries) as [| f fs] eqn:Ef.
  - rewrite industry_year_data_prefiltered, Ef.
    destruct records; reflexivity.
  - destruct records as [| r rs]; [discriminate | reflexivity].
Qed.

(** *** The cache key *)

Lemma le_bytes_length (k : nat) (x : Z) : List.length (Md5.le_bytes k x) = k.
Proof. revert x. induction k; intros x; cbn; [reflexivity | now rewrite IHk]. Qed.

Lemma digest_length (msg : list Z) : List.length (Md5.digest msg) = 16%nat.
Proof.
  unfold Md5.digest.
  destruct (fold_left Md5.compress _ Md5.init) as [[[a b] c] d].
  now rewrite !length_app, !le_bytes_length.
Qed.

Lemma hex_digit_hex (n : Z) :
  In (Md5.hex_digit n)
     ["0"; "1"; "2"; "3"; "4"; "5"; "6"; "7";
      "8"; "9"; "a"; "b"; "c"; "d"; "e"; "f"]%char.
Proof.
  unfold Md5.hex_digit.
  destruct (nth_in_or_default (Z.to_nat n)
              ["0"; "1"; "2"; "3"; "4"; "5"; "6"; "7";
               "8"; "9"; "a"; "b"; "c"; "d"; "e"; "f"]%char "0"%char)
    as [H | ->]; [exact H | now left].
Qed.

Lemma hex_concat (bs : list Z) :
  String.length (String.concat EmptyString (map Md5.hex_byte bs))
  = (2 * List.length bs)%nat
  /\ Forall (fun c =>
               In c ["0"; "1"; "2"; "3"; "4"; "5"; "6"; "7";
                     "8"; "9"; "a"; "b"; "c"; "d"; "e"; "f"]%char)
            (list_ascii_of_string
               (String.concat EmptyString (map Md5.hex_byte bs))).
Proof.
  induction bs as [| b bs [IHl IHf]]; [split; [reflexivity | constructor] |].
  assert (E : String.concat EmptyString (map Md5.hex_byte (b :: bs))
              = String (Md5.hex_digit (b / 16))
                  (String (Md5.hex_digit (b mod 16))
                     (String.concat EmptyString (map Md5.hex_byte bs)))).
  { cbn [map String.concat]. destruct (map Md5.hex_byte bs) eqn:Em.
    - reflexivity.
    - reflexivity. }
  rewrite E. split.
  - cbn [String.length List.length]. rewrite IHl. lia.
  - cbn [list_ascii_of_string].
    apply Forall_cons; [apply hex_digit_hex |].
    apply Forall_cons; [apply hex_digit_hex | exact IHf].
Qed.

(** X19: the cache key of every filter combination is 32 lowercase hexadecimal
    digits. *)
Theorem generate_key_shape :
  forall (years : option (list Z)) (industries : option (list string)),
    String.length (_generate_key years industries) = 32%nat
    /\ Forall (fun c =>
                 In c ["0"; "1"; "2"; "3"; "4"; "5"; "6"; "7";
                       "8"; "9"; "a"; "b"; "c"; "d"; "e"; "f"]%char)
              (list_ascii_of_string (_generate_key years industries)).
Proof.
  intros years industries. unfold _generate_key, Md5.hexdigest.
  destruct (hex_concat (Md5.digest (Md5.encode (Json.dumps years industries))))
    as [Hl Hf].
  split; [| exact Hf]. rewrite Hl, digest_length. reflexivity.
Qed.

(** ** Edges of the generators *)

(** *** A perfect line *)




(** *** The generators' edges *)

(** X18: without a record that has use cases, the investment generator emits
    nothing and divides by nothing. *)
Theorem investment_without_use_cases :
  forall (clock : nat -> Z) (records : list GenAIAdoptionRecord) (w : World),
    (forall r, In r records -> (use_cases_count r <= 0)%Z) ->
    _generate_investment_insights clock records w = ret ([], w).
Proof. intros. now apply investment_none. Qed.

Lemma investment_without_use_cases_witness :
  _generate_investment_insights tick_clock
    [adoption_record HEALTHCARE 2023 0.5 0 10] (InsightsEngine_init 0)
  = ret ([], InsightsEngine_init 0).
Proof.
  apply investment_without_use_cases.
  intros r [<- | []]. cbn. lia.
Defined.

Lemma nodup_constant (y : Z) (l : list Z) :
  Forall (fun z => z = y) l -> (List.length (nodup Z.eq_dec l) <= 1)%nat.
Proof.
  induction 1 as [| z l Hz Hl IH]; [cbn; lia |].
  cbn [nodup]. destruct (in_dec Z.eq_dec z l) as [_ | Hn]; [exact IH |].
  destruct l as [| z' l']; [cbn; lia |].
  exfalso. apply Hn. left. inversion Hl; subst. reflexivity.
Qed.

Lemma excluded_year_single (y z : Z) :
  excluded_year (Some [y]) z = false -> z = y.
Proof.
  unfold excluded_year, in_Z. cbn.
  destruct (Z.eqb_spec z y); [auto | discriminate].
Qed.

Lemma short_years_no_growth (recs : list GenAIAdoptionRecord) :
  (List.length (distinct_years recs) <= 1)%nat -> avg_growth recs = None.
Proof.
  intros H. unfold avg_growth, yearly_growth.
  assert (E : consecutive (sorted (distinct_years recs)) = []).
  { pose proof (Permutation_length (sorted_perm (distinct_years recs))) as L.
    destruct (sorted (distinct_years recs)) as [| p [| q t]];
      [reflexivity | reflexivity |].
    cbn [List.length] in L. lia. }
  now rewrite E.
Qed.

(** X17: with a year filter that names a single year, the growth generator
    never emits an insight: no industry is left with two years of data. *)
Theorem growth_single_year_filter :
  forall (clock : nat -> Z) (records : list GenAIAdoptionRecord) (y : Z)
         (industries : option (list string)) (w : World),
    _generate_growth_insights clock records (Some [y]) industries w
    = ret ([], w).
Proof.
  intros clock records y industries w.
  assert (Hnone : forall i,
            avg_growth (of_industry i (selected records (Some [y]) industries))
            = None).
  { intros i. apply short_years_no_growth. unfold distinct_years.
    apply (nodup_constant y). apply Forall_forall. intros z Hz.
    apply in_map_iff in Hz as (r & <- & Hr).
    apply filter_In in Hr as [Hr _]. apply filter_In in Hr as [_ Hr].
    apply andb_prop in Hr as [_ Hr]. apply negb_true_iff in Hr.
    now apply excluded_year_single. }
  destruct (growth_eval clock records (Some [y]) industries w)
    as [[_ E] | (i & g & Hg & _)]; [exact E |].
  rewrite Hnone in Hg. discriminate.
Qed.

(** *** How many matched points *)

Lemma key_eqb_spec (a b : string * Z) : reflect (a = b) (key_eqb a b).
Proof.
  destruct a as [s1 z1], b as [s2 z2]. unfold key_eqb. cbn [fst snd].
  destruct (String.eqb_spec s1 s2) as [-> | N]; cbn [andb].
  - destruct (Z.eqb_spec z1 z2) as [-> | N]; constructor; congruence.
  - constructor. congruence.
Qed.

Lemma lookup_NoDup {V : Type} (key : V -> string * Z) (l : list V) :
  NoDup (keys (fold_left (fun d r => set key_eqb d (key r) r) l [])).
Proof.
  apply (fold_left_invariant (fun d => NoDup (keys d))).
  - constructor.
  - intros d r _ Hd. now apply NoDup_set; [apply key_eqb_spec |].
Qed.

Lemma lookup_length {V : Type} (key : V -> string * Z) (l : list V) :
  (List.length (fold_left (fun d r => set key_eqb d (key r) r) l [])
   <= List.length l)%nat.
Proof.
  enough (G : forall acc,
            (List.length (fold_left (fun d r => set key_eqb d (key r) r) l acc)
             <= List.length acc + List.length l)%nat) by apply (G []).
  induction l as [| r l IH]; intros acc; cbn [fold_left List.length]; [lia |].
  specialize (IH (set key_eqb acc (key r) r)).
  assert (List.length (set key_eqb acc (key r) r) <= S (List.length acc))%nat.
  { clear IH. induction acc as [| [k v] acc IHa]; cbn [set List.length]; [lia |].
    destruct (key_eqb (key r) k); cbn [List.length]; lia. }
  lia.
Qed.

(** The matched keys, in order: the keys of [genai_lookup] that
    [aws_lookup] has. *)
Lemma matched_count (gl : list (string * Z * GenAIAdoptionRecord))
    (al : list (string * Z * AWSUsageRecord)) :
  List.length
    (fst (fold_left
            (fun acc kv =>
               match get key_eqb al (fst kv) with
               | Some aws_record =>
                   (fst acc ++ [adoption_rate (snd kv)],
                    snd acc ++ [aws_score aws_record])
               | None => acc
               end)
            gl ([], [])))
  = List.length
      (filter (fun k => match get key_eqb al k with Some _ => true | None => false end)
              (keys gl)).
Proof.
  enough (G : forall acc : list R * list R,
            List.length
              (fst (fold_left
                      (fun acc kv =>
                         match get key_eqb al (fst kv) with
                         | Some aws_record =>
                             (fst acc ++ [adoption_rate (snd kv)],
                              snd acc ++ [aws_score aws_record])
                         | None => acc
                         end)
                      gl acc))
            = (List.length (fst acc)
               + List.length
                   (filter (fun k => match get key_eqb al k with
                                     | Some _ => true | None => false end)
                           (keys gl)))%nat) by apply (G ([], [])).
  unfold keys.
  induction gl as [| [k r] gl IH]; intros acc;
    cbn [fold_left map fst snd filter List.length]; [lia |].
  rewrite IH.
  destruct (get key_eqb al k); cbn [fst List.length];
    [rewrite length_app; cbn [List.length]; lia | lia].
Qed.

Lemma matched_bound (genai : list GenAIAdoptionRecord)
    (aws : list AWSUsageRecord) :
  (len (fst (matched_values genai aws)) <= len genai)%Z
  /\ (len (fst (matched_values genai aws)) <= len aws)%Z.
Proof.
  unfold matched_values, len. rewrite matched_count.
  set (gl := fold_left _ genai []). set (al := fold_left _ aws []).
  split; apply inj_le.
  - eapply Nat.le_trans; [apply filter_length_le |].
    unfold keys. rewrite length_map.
    apply (lookup_length
             (fun r : GenAIAdoptionRecord => (value (industry r), year r))).
  - eapply Nat.le_trans;
      [| apply (lookup_length
                  (fun r : AWSUsageRecord => (value (industry r), year r)) aws)].
    fold al. rewrite <- (length_map fst al).
    apply NoDup_incl_length.
    + apply NoDup_filter.
      apply (lookup_NoDup
               (fun r : GenAIAdoptionRecord => (value (industry r), year r))).
    + intros k Hk. apply filter_In in Hk as [_ Hk].
      apply (get_keys key_eqb key_eqb_spec).
      destruct (get key_eqb al k); discriminate.
Qed.

(** X9: fewer than 3 adoption records, or fewer than 3 usage records, never
    give a correlation insight: there cannot be 3 matched keys. *)
Theorem correlation_needs_three_records :
  forall (clock : nat -> Z) (genai : list GenAIAdoptionRecord)
         (aws : list AWSUsageRecord) (w : World),
    (len genai < 3)%Z \/ (len aws < 3)%Z ->
    _generate_correlation_insights clock genai aws w = ret ([], w).
Proof.
  intros clock genai aws w H.
  destruct (matched_bound genai aws) as [Bg Ba].
  destruct (correlation_eval clock genai aws w)
    as [[E _] | (r & p & _ & _ & _ & Hn & _)]; [exact E | lia].
Qed.

Lemma correlation_needs_three_records_witness :
  _generate_correlation_insights tick_clock saturated_adoption
    [usage_record HEALTHCARE 2021 0.2; usage_record HEALTHCARE 2022 0.9]
    (InsightsEngine_init 0)
  = ret ([], InsightsEngine_init 0).
Proof.
  apply correlation_needs_three_records. right. cbn. lia.
Defined.
